(** * documentation.js: the Markdown AST generator

    A shallow embedding of [src/output/markdown_ast.js] and the properties
    of the tree it builds.

    Conventions of the embedding.
    - A JavaScript exception is a [Throw] in the [Result] monad; the only
      exception the generator itself can raise is the [TypeError] of reading
      a property of [undefined].
    - A property that may be missing is an [option], [None] standing for a
      property that is not there.
    - The values the generator concatenates are nodes, arrays of nodes,
      [false] and [undefined]; [concat] and [filterBoolean] follow
      [Array.prototype.concat] and [.filter(Boolean)] on them. An array
      that holds nodes only is a [list Node].
    - The input is typed as the Flow declarations say: descriptions,
      captions and "see" entries are remark trees, tags have a name, and so
      on. The comment tree is an inductive type, hence finite and acyclic.
    - Collaborators that live outside this module ([formatType], the
      highlighter, the link resolver, [rerouteLinks], the remark plugins,
      the slug text function) are Section variables. *)

From Stdlib Require Import List String Ascii Bool Arith Lia DecimalString.
Import ListNotations.
Local Open Scope string_scope.
Local Open Scope list_scope.

Set Implicit Arguments.
#[local] Set Warnings "-register-all".

(** ** Exceptions *)

Inductive JsError : Type := TypeError.

Inductive Result (A : Type) : Type :=
| Ok (a : A)
| Throw (e : JsError).

Arguments Ok {A} a.
Arguments Throw {A} e.

Definition bind {A B : Type} (r : Result A) (k : A -> Result B) : Result B :=
  match r with
  | Ok a => k a
  | Throw e => Throw e
  end.

Notation "x <- r ;; k" := (bind r (fun x => k))
  (at level 61, r at next level, right associativity).

(** Reading a property of a value that may be [undefined]: [o.p] raises a
    TypeError when [o] is undefined, and goes on with [o] otherwise. *)
Notation "x <~ o ;; k" :=
  (match o with
   | Some x => k
   | None => Throw TypeError
   end)
  (at level 61, o at next level, right associativity).

(** ** Document nodes (unist-builder's [u(type, props, children|value)]) *)

Inductive Node : Type :=
| html (value : string)
| text (value : string)
| inlineCode (value : string)
| code (lang : option string) (value : string)
| thematicBreak
| heading (depth : nat) (children : list Node)
| paragraph (children : list Node)
| list_ (ordered : bool) (children : list Node)
| listItem (children : list Node)
| strong (children : list Node)
| emphasis (children : list Node)
| link (url : string) (title : option string) (children : list Node)
| root (children : list Node).

(** ** The values that flow through [.concat] and [.filter(Boolean)] *)

(** An array element. *)
Inductive Elem : Type :=
| EFalse
| EUndefined
| ENode (n : Node).

(** A section builder's result: one element, or an array of them. *)
Inductive JsVal : Type :=
| JElem (e : Elem)
| JArr (a : list Elem).

(** [a.concat(v)]: an array argument is spread, anything else is appended
    as one element. *)
Definition concat (a : list Elem) (v : JsVal) : list Elem :=
  match v with
  | JArr b => a ++ b
  | JElem e => a ++ [e]
  end.

(** A chain [a.concat(v).concat(w)] reads [a +++ v +++ w]. *)
Infix "+++" := concat (at level 50, left associativity).

(** [a.filter(Boolean)]: [false] and [undefined] go, what is left is an
    array of nodes. *)
Fixpoint filterBoolean (a : list Elem) : list Node :=
  match a with
  | [] => []
  | ENode n :: a' => n :: filterBoolean a'
  | _ :: a' => filterBoolean a'
  end.

Definition nodes (l : list Node) : list Elem := map ENode l.

(** Truthiness of an optional string: [undefined] and [''] are falsy. *)
Definition truthyStr (s : option string) : bool :=
  match s with
  | Some s' => negb (s' =? EmptyString)
  | None => false
  end.

(** ** The data model (Flow types [Comment], [CommentTag], [Remark], ...) *)

(** A type expression, as doctrine parses it. *)
Inductive DoctrineType : Type :=
| NameExpression (name : string)
| AllLiteral
| NullLiteral
| UndefinedLiteral
| UnionType (elements : list DoctrineType)
| TypeApplication (expression : DoctrineType) (applications : list DoctrineType)
| OptionalType (expression : DoctrineType)
| FunctionType (params : list DoctrineType) (result : option DoctrineType).

(** Pre-parsed rich text: a remark tree, of which only [children] is read. *)
Record Remark : Type := mkRemark { r_children : list Node }.

(** The remark tree as a node of its own (a [root]). *)
Definition remarkNode (r : Remark) : Node := root (r_children r).

Inductive CommentTag : Type := mkTag {
  tag_name : string;
  tag_type : option DoctrineType;
  tag_description : option Remark;
  tag_default : option string;
  tag_properties : option (list CommentTag)
}.

Record CommentExample : Type := mkExample {
  ex_description : string;
  ex_caption : option Remark
}.

Record CommentContextGitHub : Type := mkGitHub {
  gh_path : string;
  gh_url : string
}.

Record CommentContext : Type := mkContext {
  ctx_loc_start_line : nat;
  ctx_github : option CommentContextGitHub
}.

Record CommentMembers (C : Type) : Type := mkMembers {
  m_global : option (list C);
  m_instance : option (list C);
  m_static : option (list C);
  m_inner : option (list C)
}.

Inductive Comment : Type := mkComment {
  name : option string;
  kind : option string;
  description : option Remark;
  type : option DoctrineType;
  params : option (list CommentTag);
  properties : option (list CommentTag);
  returns : option (list CommentTag);
  throws : option (list CommentTag);
  sees : option (list Remark);
  examples : option (list CommentExample);
  augments : option (list CommentTag);
  context : option CommentContext;
  version : option string;
  since : option string;
  copyright : option Remark;
  author : option string;
  license : option string;
  deprecated : option Remark;
  members : option (CommentMembers Comment)
}.

(** What [formatType] is applied to: a type expression, [undefined] (a tag
    without a type), or the object [typeSection] synthesizes with
    [Object.assign({type: 'FunctionType'}, comment, {result: ...})], which
    carries every property of the comment next to [type] and [result]. *)
Record SynthesizedType : Type := mkSynth {
  st_type : string;
  st_comment : Comment;
  st_result : option DoctrineType
}.

Inductive FormatArg : Type :=
| ArgUndefined
| ArgType (t : DoctrineType)
| ArgSynth (s : SynthesizedType).

Record HljsOptions : Type := mkHljs { highlightAuto : bool }.

Record DocumentationConfig : Type := mkConfig {
  cfg_hljs : option HljsOptions;
  cfg_markdownToc : bool;
  cfg_noReferenceLinks : bool
}.

(** ** Small JavaScript helpers *)

(** [a.length > 0], and [!!a.length]. *)
Definition nonEmpty {A : Type} (a : list A) : bool :=
  Nat.ltb 0 (List.length a).

(** [array.join(sep)] on strings. *)
Definition join (sep : string) (l : list string) : string := String.concat sep l.

(** String conversion of a number, as [+] does on a string and a number. *)
Definition numberToString (n : nat) : string :=
  NilZero.string_of_uint (Nat.to_uint n).

(** [comment.name || '']. *)
Definition nameOrEmpty (c : Comment) : string :=
  match name c with
  | Some s => s
  | None => EmptyString
  end.

(** [x && x.children ? ... : []] on an optional remark tree. *)
Definition descriptionChildren (d : option Remark) : JsVal :=
  match d with
  | Some r => JArr (nodes (r_children r))
  | None => JArr []
  end.

(** The argument [formatType] gets from a tag's [type] property. *)
Definition typeArg (t : option DoctrineType) : FormatArg :=
  match t with
  | Some t' => ArgType t'
  | None => ArgUndefined
  end.

(** [comment[tag]] for the tags the metadata section reads. *)
Inductive MetaValue : Type :=
| MString (s : string)
| MRemark (r : Remark).

Definition getTag (c : Comment) (tag : string) : option MetaValue :=
  if tag =? "version" then option_map MString (version c)
  else if tag =? "since" then option_map MString (since c)
  else if tag =? "copyright" then option_map MRemark (copyright c)
  else if tag =? "author" then option_map MString (author c)
  else if tag =? "license" then option_map MString (license c)
  else if tag =? "deprecated" then option_map MRemark (deprecated c)
  else None.

Definition truthyMeta (v : option MetaValue) : bool :=
  match v with
  | Some (MString s) => negb (s =? EmptyString)
  | Some (MRemark _) => true
  | None => false
  end.

(** ** The generator ([buildMarkdownAST] and the builders nested in it) *)

Definition DEFAULT_LANGUAGE : string := "javascript".

Section Generator.

(** [formatType], already bound to the link resolver
    ([_formatType.bind(undefined, linkerStack.link)]); it lives in
    [./util/format_type]. *)
Variable formatType : FormatArg -> list Node.

(** [hljs.highlightAuto(code).language]. *)
Variable hljs_highlightAuto_language : string -> option string.

Variable config : DocumentationConfig.

(** [config.hljs || {}], of which only [highlightAuto] is read here. *)
Definition hljsOptions : HljsOptions :=
  match cfg_hljs config with
  | Some o => o
  | None => mkHljs false
  end.

(** [comment.returns && comment.returns[0] && comment.returns[0].type]. *)
Definition firstReturnType (comment : Comment) : option DoctrineType :=
  match returns comment with
  | Some (r :: _) => tag_type r
  | _ => None
  end.

Definition typeSection (comment : Comment) : JsVal :=
  match type comment with
  | Some t =>
      JElem (ENode (paragraph ([text "Type: "] ++ formatType (ArgType t))))
  | None =>
      if truthyStr (kind comment) then
        let c := mkSynth "FunctionType" comment (firstReturnType comment) in
        JElem (ENode (paragraph ([text "Type: "] ++ formatType (ArgSynth c))))
      else JElem EUndefined
  end.

(** The paragraph of one parameter's list item. *)
Definition paramParagraph (param : CommentTag) : Node :=
  paragraph
    (filterBoolean
       ([ENode (inlineCode (tag_name param));
         ENode (text " ");
         match tag_type param with
         | Some t => ENode (strong (formatType (ArgType t)))
         | None => EFalse
         end;
         ENode (text " ")]
          +++ descriptionChildren (tag_description param)
          +++ JArr
                [if truthyStr (tag_default param) then
                   ENode (paragraph
                            [text " (optional, default ";
                             inlineCode (match tag_default param with
                                         | Some s => s
                                         | None => EmptyString
                                         end);
                             text ")"])
                 else EFalse])).

(** The list node [paramList] returns for a non-empty sequence, with the
    nested call [param.properties && paramList(param.properties)] of each
    item written out: [undefined] without nested properties, the empty
    array for an empty sequence, the nested list node otherwise. *)
Fixpoint paramItem (param : CommentTag) : Node :=
  listItem
    (filterBoolean
       ([ENode (paramParagraph param)]
          +++ match tag_properties param with
              | None => JElem EUndefined
              | Some [] => JArr []
              | Some ps => JElem (ENode (list_ false (map paramItem ps)))
              end)).

Definition paramList (params : list CommentTag) : JsVal :=
  if Nat.eqb (List.length params) 0 then JArr []
  else JElem (ENode (list_ false (map paramItem params))).

(** [comment.params.length > 0 && [paramList(comment.params)]]: behind the
    guard [paramList] returns a node, which the array literal holds (the
    other branch of the match is not reached). *)
Definition paramSection (comment : Comment) : Result JsVal :=
  ps <~ params comment ;;
  Ok (if nonEmpty ps
      then match paramList ps with
           | JElem e => JArr [e]
           | JArr _ => JArr []
           end
      else JElem EFalse).

Definition propertyParagraph (property : CommentTag) : Node :=
  paragraph
    (filterBoolean
       ([ENode (inlineCode (tag_name property));
         ENode (text " ");
         ENode (strong (formatType (typeArg (tag_type property))));
         ENode (text " ")]
          +++ descriptionChildren (tag_description property))).

(** One [listItem] of [propertyList], with the nested call
    [property.properties && propertyList(property.properties)]. *)
Fixpoint propertyItem (property : CommentTag) : Node :=
  listItem
    (filterBoolean
       [ENode (propertyParagraph property);
        match tag_properties property with
        | None => EUndefined
        | Some ps => ENode (list_ false (map propertyItem ps))
        end]).

Definition propertyList (properties : list CommentTag) : Node :=
  list_ false (map propertyItem properties).

Definition propertySection (comment : Comment) : Result JsVal :=
  ps <~ properties comment ;;
  Ok (if nonEmpty ps
      then JArr [ENode (propertyList ps)]
      else JElem EFalse).

Definition exampleLanguage (example : CommentExample) : option string :=
  if highlightAuto hljsOptions
  then hljs_highlightAuto_language (ex_description example)
  else Some DEFAULT_LANGUAGE.

(** [u('emphasis', example.caption)]: the caption, a remark tree and not
    an array, is taken as the props argument of [u]; its own properties,
    [type] and [children] among them, are merged over
    [{type: 'emphasis'}], so the node the paragraph holds is the caption's
    tree itself, a [root]. *)
Definition examplesSection (comment : Comment) : Result JsVal :=
  es <~ examples comment ;;
  Ok (if nonEmpty es
      then
        JArr
          ([ENode (text "Examples:")]
             +++ JArr
                   (fold_left
                      (fun memo example =>
                         memo
                           +++ match ex_caption example with
                               | Some caption =>
                                   JArr [ENode (paragraph
                                                  [remarkNode caption])]
                               | None => JArr []
                               end
                           +++ JArr [ENode (code (exampleLanguage example)
                                              (ex_description example))])
                      es []))
      else JElem EFalse).

Definition returnsSection (comment : Comment) : Result JsVal :=
  rs <~ returns comment ;;
  Ok (if nonEmpty rs
      then
        JArr
          (map
             (fun returns =>
                ENode
                  (paragraph
                     ([text "Returns:";
                       text " ";
                       strong (formatType (typeArg (tag_type returns)));
                       text " "]
                        ++ match tag_description returns with
                           | Some d => r_children d
                           | None => []
                           end)))
             rs)
      else JElem EFalse).

Definition throwsSection (comment : Comment) : Result JsVal :=
  ts <~ throws comment ;;
  Ok (if nonEmpty ts
      then
        JElem
          (ENode
             (list_ false
                (map
                   (fun returns =>
                      listItem
                        [paragraph
                           ([text "Throws:";
                             text " ";
                             strong (formatType (typeArg (tag_type returns)));
                             text " "]
                              ++ match tag_description returns with
                                 | Some d => r_children d
                                 | None => []
                                 end)])
                   ts)))
      else JElem EFalse).

Definition augmentsLink (comment : Comment) : Result JsVal :=
  ags <~ augments comment ;;
  Ok (if nonEmpty ags
      then
        JElem
          (ENode
             (paragraph
                [strong
                   [text "Extends: ";
                    text (join ", " (map tag_name ags))]]))
      else JElem EFalse).

Definition seeLink (comment : Comment) : Result JsVal :=
  ss <~ sees comment ;;
  Ok (if nonEmpty ss
      then
        JElem
          (ENode
             (list_ false
                (map
                   (fun see =>
                      listItem [strong ([text "See: "] ++ r_children see)])
                   ss)))
      else JElem EFalse).

Definition githubLink (comment : Comment) : JsVal :=
  match context comment with
  | None => JElem EUndefined
  | Some ctx =>
      match ctx_github ctx with
      | None => JElem EUndefined
      | Some github =>
          JElem
            (ENode
               (paragraph
                  [text "Source: ";
                   link (gh_url github) (Some "Source code on GitHub")
                     [text (gh_path github ++ ":"
                            ++ numberToString (ctx_loc_start_line ctx))]]))
      end
  end.

Definition metaTags : list string :=
  ["version"; "since"; "copyright"; "author"; "license"; "deprecated"].

(** [metaContent = comment[tag]] (copyright, deprecated: a remark tree,
    taken as the node). The listed tags have passed the truthiness
    filter; the other two cases lie outside the Flow types. *)
Definition valueAsNode (v : option MetaValue) : Node :=
  match v with
  | Some (MRemark r) => remarkNode r
  | Some (MString s) => text s
  | None => text EmptyString
  end.

(** [metaContent = u('text', comment[tag])] (version, since, author,
    license: a string). *)
Definition u_text (v : option MetaValue) : Node :=
  match v with
  | Some (MString s) => text s
  | Some (MRemark r) => remarkNode r
  | None => text EmptyString
  end.

Definition metaItem (comment : Comment) (tag : string) : Node :=
  let metaContent :=
    if (tag =? "copyright") || (tag =? "deprecated")
    then valueAsNode (getTag comment tag)
    else u_text (getTag comment tag) in
  listItem [paragraph [strong [text tag]; text ": "; metaContent]].

Definition metaSection (comment : Comment) : JsVal :=
  let meta := filter (fun tag => truthyMeta (getTag comment tag)) metaTags in
  if nonEmpty meta
  then
    JArr
      ([ENode (strong [text "Meta"])]
         +++ JElem (ENode (list_ false (map (metaItem comment) meta))))
  else JElem EFalse.

(** [!!group.length && group.reduce((memo, child) =>
      memo.concat(generate(depth + 1, child)), [])],
    with [gen] standing for [generate (depth + 1)]. *)
Definition generateGroup (gen : Comment -> Result (list Node))
    (group : list Comment) : Result JsVal :=
  if nonEmpty group
  then
    r <- fold_left
           (fun memo child =>
              m <- memo ;;
              g <- gen child ;;
              Ok (m ++ g))
           group (Ok []) ;;
    Ok (JArr (nodes r))
  else Ok (JElem EFalse).

(** [comment.kind === 'note']. *)
Definition isNote (comment : Comment) : bool :=
  match kind comment with
  | Some k => k =? "note"
  | None => false
  end.

(** The heading's children, wrapped in a link to the source when the
    comment has GitHub origin information. *)
Definition headingContent (comment : Comment) : list Node :=
  let heading := [text (nameOrEmpty comment)] in
  match context comment with
  | Some ctx =>
      match ctx_github ctx with
      | Some github => [link (gh_url github) None heading]
      | None => heading
      end
  | None => heading
  end.

(** The non-note chain from the thematic break up to and including
    [.concat(metaSection(comment))], before the member groups. *)
Definition sections (depth : nat) (comment : Comment) : Result (list Elem) :=
  a <- augmentsLink comment ;;
  s <- seeLink comment ;;
  p <- paramSection comment ;;
  pr <- propertySection comment ;;
  t <- throwsSection comment ;;
  e <- examplesSection comment ;;
  Ok ([ENode thematicBreak]
        +++ JArr [ENode (heading depth (headingContent comment))]
        +++ a
        +++ s
        +++ descriptionChildren (description comment)
        +++ typeSection comment
        +++ p
        +++ pr
        +++ t
        +++ e
        +++ metaSection comment).

Fixpoint generate (depth : nat) (comment : Comment) {struct comment}
  : Result (list Node) :=
  if isNote comment then
    m <~ members comment ;;
    statics <~ m_static m ;;
    s <- generateGroup (fun child => generate (depth + 1) child) statics ;;
    Ok (filterBoolean
          ([ENode (heading depth [text (nameOrEmpty comment)])]
             +++ JElem match description comment with
                       | Some d => ENode (remarkNode d)
                       | None => EUndefined
                       end
             +++ s))
  else
    own <- sections depth comment ;;
    m <~ members comment ;;
    globals <~ m_global m ;;
    g <- generateGroup (fun child => generate (depth + 1) child) globals ;;
    instances <~ m_instance m ;;
    i <- generateGroup (fun child => generate (depth + 1) child) instances ;;
    statics <~ m_static m ;;
    s <- generateGroup (fun child => generate (depth + 1) child) statics ;;
    inners <~ m_inner m ;;
    n <- generateGroup (fun child => generate (depth + 1) child) inners ;;
    Ok (filterBoolean (own +++ g +++ i +++ s +++ n)).

Definition generatorComment : list Node :=
  [html "<!-- Generated by documentation.js. Update this documentation by updating the source code. -->"].

Definition tableOfContentsHeading : list Node :=
  [heading 3 [text "Table of Contents"]].

(** The tree handed to [rerouteLinks]: [u('root', ...)]. All the arrays
    concatenated here are arrays of nodes. *)
Definition rawTree (comments : list Comment) : Result Node :=
  body <- fold_left
            (fun memo comment =>
               m <- memo ;;
               g <- generate 2 comment ;;
               Ok (m ++ g))
            comments (Ok []) ;;
  Ok (root
        (((generatorComment
             ++ (if cfg_markdownToc config then tableOfContentsHeading else []))
            ++ body)
           ++ [thematicBreak])).

End Generator.

(** ** The anchor function and the slugger it uses *)

(** Modelled from the spec: the github-slugger package, a dependency that
    is not among the sources. A slugger turns a text into anchor text and
    remembers the anchors it has handed out, so that a repeated anchor text
    is disambiguated by a numeric suffix. [slugText] is the package's text
    normalisation, taken as a parameter. *)
Section Slugger.

Variable slugText : string -> string.

(** The state of a slugger: how often each anchor text has occurred. *)
Record GithubSlugger : Type := mkSlugger {
  occurrences : list (string * nat)
}.

(** [new GithubSlugger()]. *)
Definition newGithubSlugger : GithubSlugger := mkSlugger [].

Fixpoint lookup (key : string) (m : list (string * nat)) : option nat :=
  match m with
  | [] => None
  | (k, v) :: m' => if k =? key then Some v else lookup key m'
  end.

(** [slugger.slug(value)]: the anchor and the slugger's next state. *)
Definition slug (self : GithubSlugger) (value : string)
  : string * GithubSlugger :=
  let s := slugText value in
  match lookup s (occurrences self) with
  | Some n =>
      ((s ++ "-" ++ numberToString (n + 1))%string,
       mkSlugger ((s, n + 1) :: occurrences self))
  | None => (s, mkSlugger ((s, 0) :: occurrences self))
  end.

(** The function [buildMarkdownAST] hands to [namespaceResolver]:
    [namespace => { const slugger = new GithubSlugger();
                    return '#' + slugger.slug(namespace); }]. *)
Definition anchorFn (namespace : string) : string :=
  let slugger := newGithubSlugger in
  ("#" ++ fst (slug slugger namespace))%string.

End Slugger.

(** Modelled from the spec: a text normalisation for ASCII input, under
    which "Foo Bar" and "foo-bar" slug to the same anchor text: letters are
    lower-cased and white space becomes a hyphen. *)
Definition asciiLower (c : ascii) : ascii :=
  let n := nat_of_ascii c in
  if (Nat.leb 65 n && Nat.leb n 90)%bool then ascii_of_nat (n + 32) else c.

Fixpoint asciiSlugText (s : string) : string :=
  match s with
  | EmptyString => EmptyString
  | String c s' =>
      String (if Ascii.eqb c " "%char then "-"%char else asciiLower c)
             (asciiSlugText s')
  end.

(** ** [buildMarkdownAST]

    [markdownAST] itself merges the configuration ([mergeConfig(args)]) and
    then calls [buildMarkdownAST]; the promise that wraps the result is not
    modelled. *)

Section Build.

(** The link resolver ([./util/linker_stack]), [formatType] before it is
    bound to the resolver, [rerouteLinks] and the two remark plugins. *)
Variable LinkerStack : Type.
Variable namespaceResolver :
  DocumentationConfig -> list Comment -> (string -> string) -> LinkerStack.
Variable _formatType : LinkerStack -> FormatArg -> list Node.
Variable rerouteLinks : LinkerStack -> Node -> Node.
Variable toc : Node -> Node.
Variable links : Node -> Node.
Variable slugText : string -> string.

(** [hljs.highlightAuto(code).language] once [hljs.configure(options)] has
    run. *)
Variable hljs_highlightAuto_language : HljsOptions -> string -> option string.

(** [pluginRemark.run(root)] with the plugins the configuration selects. *)
Definition pluginRemark_run (config : DocumentationConfig) (tree : Node) : Node :=
  let tree := if cfg_markdownToc config then toc tree else tree in
  if cfg_noReferenceLinks config then tree else links tree.

Definition buildMarkdownAST (comments : list Comment)
    (config : DocumentationConfig) : Result Node :=
  let linkerStack := namespaceResolver config comments (anchorFn slugText) in
  let formatType := _formatType linkerStack in
  tree <- rawTree formatType (hljs_highlightAuto_language (hljsOptions config))
            config comments ;;
  Ok (pluginRemark_run config (rerouteLinks linkerStack tree)).

End Build.

(** ** Well-formed input and the entries the generator visits *)

Definition present {A : Type} (o : option A) : bool :=
  match o with
  | Some _ => true
  | None => false
  end.

(** Every sequence property of the entry itself is there. *)
Definition sequencesPresent (c : Comment) : bool :=
  present (params c) && present (properties c) && present (returns c)
  && present (throws c) && present (sees c) && present (examples c)
  && present (augments c).

(** A well-formed entry: its sequences and its four member groups are
    present, and so for every entry below it. *)
Fixpoint wellFormed (c : Comment) : bool :=
  sequencesPresent c
  && match members c with
     | None => false
     | Some m =>
         match m_global m, m_instance m, m_static m, m_inner m with
         | Some g, Some i, Some s, Some n =>
             forallb wellFormed g && forallb wellFormed i
             && forallb wellFormed s && forallb wellFormed n
         | _, _, _, _ => false
         end
     end.

(** The entries below [c] that the generator reaches, each with its
    nesting level, in the order of the traversal; [c] itself is at [lvl]. *)
Fixpoint entriesAt (lvl : nat) (c : Comment) : list (nat * Comment) :=
  (lvl, c)
  :: match members c with
     | None => []
     | Some m =>
         let below (o : option (list Comment)) :=
           match o with
           | Some l => flat_map (entriesAt (S lvl)) l
           | None => []
           end in
         if isNote c
         then below (m_static m)
         else below (m_global m) ++ below (m_instance m)
              ++ below (m_static m) ++ below (m_inner m)
     end.

(** The entries of a forest, its top-level entries being at level 0. *)
Definition entries (comments : list Comment) : list (nat * Comment) :=
  flat_map (entriesAt 0) comments.

(** The nodes a [.concat(v)] step leaves in the array once
    [.filter(Boolean)] has run. *)
Definition contribution (v : JsVal) : list Node := filterBoolean (concat [] v).

(** ** Notions used to state the properties *)

(** The entries directly below an entry, over all four groups. *)
Inductive childOf (x c : Comment) : Prop :=
| child_intro (m : CommentMembers Comment) (l : list Comment) :
    members c = Some m ->
    m_global m = Some l \/ m_instance m = Some l
    \/ m_static m = Some l \/ m_inner m = Some l ->
    In x l -> childOf x c.

(** [outs] lists, child by child and in the order of [group], what [gen]
    returns. *)
Definition generated (gen : Comment -> Result (list Node))
    (group : list Comment) (outs : list (list Node)) : Prop :=
  Forall2 (fun child out => gen child = Ok out) group outs.

(** The callback of the two [reduce] calls:
    [(memo, child) => memo.concat(gen(child))]. *)
Definition reduceStep (gen : Comment -> Result (list Node))
    (memo : Result (list Node)) (child : Comment) : Result (list Node) :=
  m <- memo ;;
  g <- gen child ;;
  Ok (m ++ g).

(** The node [.concat(comment.description)] leaves in a note's output. *)
Definition descriptionNode (comment : Comment) : list Node :=
  match description comment with
  | Some d => [remarkNode d]
  | None => []
  end.

(** The nodes of the fixed-order chain, section by section. *)
Definition sectionNodes (formatType : FormatArg -> list Node)
    (depth : nat) (comment : Comment)
    (a s p pr t e : JsVal) : list Node :=
  [thematicBreak; heading depth (headingContent comment)]
    ++ contribution a
    ++ contribution s
    ++ contribution (descriptionChildren (description comment))
    ++ contribution (typeSection formatType comment)
    ++ contribution p
    ++ contribution pr
    ++ contribution t
    ++ contribution e
    ++ contribution (metaSection comment).

(** The fields of a synthesized function type that make its signature. *)
Definition signature (s : SynthesizedType)
    : string * option (list CommentTag) * option DoctrineType :=
  (st_type s, params (st_comment s), st_result s).

(** [formatType] renders a synthesized function type from its signature. *)
Definition rendersSignature (formatType : FormatArg -> list Node) : Prop :=
  forall s s', signature s = signature s' ->
               formatType (ArgSynth s) = formatType (ArgSynth s').


(** A tag is listed when [comment[tag]] is truthy. *)
Definition tagPresent (comment : Comment) (tag : string) : bool :=
  truthyMeta (getTag comment tag).

(** The tag a metadata list item is for: the text of its leading [strong]. *)
Definition itemTag (item : Node) : option string :=
  match item with
  | listItem [paragraph (strong [text tag] :: _)] => Some tag
  | _ => None
  end.

(** [comment.context && comment.context.github]. *)
Definition githubOf (comment : Comment) : option CommentContextGitHub :=
  match context comment with
  | Some ctx => ctx_github ctx
  | None => None
  end.

(** The children spliced in by
    [.concat(comment.description ? comment.description.children : [])]. *)
Definition descriptionBody (comment : Comment) : list Node :=
  match description comment with
  | Some d => r_children d
  | None => []
  end.

Definition isHeading (n : Node) : bool :=
  match n with
  | heading _ _ => true
  | _ => false
  end.

(** A paragraph as [returnsSection] builds it: it opens with the text
    "Returns:". *)
Definition isReturnsParagraph (n : Node) : bool :=
  match n with
  | paragraph (text v :: _) => v =? "Returns:"
  | _ => false
  end.

(** A paragraph as [githubLink] builds it: it opens with the text
    "Source: ". *)
Definition isSourceParagraph (n : Node) : bool :=
  match n with
  | paragraph (text v :: _) => v =? "Source: "
  | _ => false
  end.

Definition isReturnsOrSource (n : Node) : bool :=
  isReturnsParagraph n || isSourceParagraph n.

(** The heading [generate] makes for an entry at nesting level [fst le],
    the top-level entries being generated at depth [base]. *)
Definition headingOf (base : nat) (le : nat * Comment) : Node :=
  heading (base + fst le)
    (if isNote (snd le)
     then [text (nameOrEmpty (snd le))]
     else headingContent (snd le)).

(** The nodes the section builders that [generate] calls put at the top
    level of the output. *)
Definition sectionNode (n : Node) : bool :=
  match n with
  | paragraph (text v :: _) => v =? "Type: "
  | paragraph (strong _ :: _) => true
  | paragraph (root _ :: _) => true
  | list_ _ _ => true
  | text _ => true
  | code _ _ => true
  | strong _ => true
  | _ => false
  end.

(** The children of an entry's description that satisfy [p]: input nodes
    that the standard layout copies to the output unchanged (a note's
    description goes to the output as one [root] node instead). *)
Definition passedThrough (p : Node -> bool) (comment : Comment) : list Node :=
  if isNote comment then [] else filter p (descriptionBody comment).

(** What one entry leaves in the output filtered by [p]: its heading, when
    headings satisfy [p], and the description children that do. *)
Definition kept (p : Node -> bool) (base : nat) (le : nat * Comment)
    : list Node :=
  filter p [headingOf base le] ++ passedThrough p (snd le).

(** ** Sample input *)

(** A [formatType] that renders a name as inline code and a synthesized
    function type from its parameter names and its result. *)
Definition sampleFormatType (a : FormatArg) : list Node :=
  match a with
  | ArgUndefined => [text "any"]
  | ArgType (NameExpression n) => [inlineCode n]
  | ArgType _ => [text "*"]
  | ArgSynth s =>
      [text "function (";
       text (join ", " match params (st_comment s) with
                        | Some ps => map tag_name ps
                        | None => []
                        end);
       text "): ";
       match st_result s with
       | Some (NameExpression n) => inlineCode n
       | _ => text "*"
       end]
  end.

Definition sampleHighlight (_ : string) : option string := Some "js".

Definition sampleConfig : DocumentationConfig := mkConfig None true false.

(** An entry with a name, a kind and member groups, and nothing else. *)
Definition entry (nm kd : string) (g i s n : list Comment) : Comment :=
  mkComment (Some nm) (Some kd) None None
    (Some []) (Some []) (Some []) (Some []) (Some []) (Some []) (Some [])
    None None None None None None None
    (Some (mkMembers (Some g) (Some i) (Some s) (Some n))).

Definition typedTag (nm ty : string) : CommentTag :=
  mkTag nm (Some (NameExpression ty)) None None None.

(** [Object.assign({}, comment, {returns: rs})]. *)
Definition withReturns (rs : option (list CommentTag)) (c : Comment) : Comment :=
  mkComment (name c) (kind c) (description c) (type c) (params c)
    (properties c) rs (throws c) (sees c) (examples c) (augments c)
    (context c) (version c) (since c) (copyright c) (author c) (license c)
    (deprecated c) (members c).


(** An entry with [since] and [deprecated] and no other metadata tag. *)
Definition sampleDeprecated : Comment :=
  mkComment (Some "old") (Some "function") None None
    (Some []) (Some []) (Some []) (Some []) (Some []) (Some []) (Some [])
    None None (Some "1.2.0") None None None
    (Some (mkRemark [paragraph [text "use new"]]))
    (Some (mkMembers (Some []) (Some []) (Some []) (Some []))).

(** A documented class with every section, GitHub origin information, an
    instance member, and two levels of static members. *)
Definition sampleClass : Comment :=
  mkComment (Some "Widget") (Some "class")
    (Some (mkRemark [paragraph [text "A widget."]]))
    None
    (Some [mkTag "options" (Some (NameExpression "Object")) None None
             (Some [typedTag "options.size" "number"])])
    (Some [typedTag "id" "string"])
    (Some [typedTag EmptyString "Widget"])
    (Some [typedTag EmptyString "Error"])
    (Some [mkRemark [text "Gadget"]])
    (Some [mkExample "new Widget()" None])
    (Some [mkTag "Base" None None None None])
    (Some (mkContext 12
             (Some (mkGitHub "src/widget.js"
                      "https://github.com/o/r/blob/main/src/widget.js#L12"))))
    (Some "1.0.0") None None None None None
    (Some (mkMembers
             (Some [])
             (Some [entry "render" "function" [] [] [] []])
             (Some [entry "create" "function" [] []
                      [entry "defaults" "member" [] [] [] []] []])
             (Some []))).

(** A note with three static children and a non-empty instance group; its
    sequences and its global and inner groups are absent. *)
Definition sampleNote : Comment :=
  mkComment (Some "Guide") (Some "note")
    (Some (mkRemark [paragraph [text "Read me."]]))
    None None None None None None None None None
    None None None None None None
    (Some (mkMembers
             None
             (Some [entry "hidden" "function" [] [] [] []])
             (Some [entry "one" "member" [] [] [] [];
                    entry "two" "member" [] [] [] [];
                    entry "three" "member" [] [] [] []])
             None)).

(** An entry without [members]. *)
Definition sampleMalformed : Comment :=
  mkComment (Some "broken") (Some "function") None None
    (Some []) (Some []) (Some []) (Some []) (Some []) (Some []) (Some [])
    None None None None None None None None.

(** Collaborators for running [buildMarkdownAST]: a resolver that knows the
    names of the top-level entries, and passes that change nothing. *)
Definition SampleLinker : Type := string -> option string.

Definition sampleNamespaceResolver (_ : DocumentationConfig)
    (comments : list Comment) (anchor : string -> string) : SampleLinker :=
  fun namespace =>
    if existsb (fun c => nameOrEmpty c =? namespace) comments
    then Some (anchor namespace)
    else None.

Definition sampleFormatTypeWith (_ : SampleLinker) : FormatArg -> list Node :=
  sampleFormatType.

Definition sampleReroute (_ : SampleLinker) (tree : Node) : Node := tree.

Definition samplePlugin (tree : Node) : Node := tree.

Definition sampleHighlightWith (_ : HljsOptions) : string -> option string :=
  sampleHighlight.

(** ** Notions for the further properties *)

(** What [generate] reads of an entry and of the entries it goes on to: a
    note needs its [members.static]; any other entry needs the six
    sequences its section builders take the length of, and its four member
    groups. *)
Fixpoint generable (c : Comment) : bool :=
  match members c with
  | None => false
  | Some m =>
      if isNote c
      then match m_static m with
           | Some s => forallb generable s
           | None => false
           end
      else
        present (augments c) && present (sees c) && present (params c)
        && present (properties c) && present (throws c)
        && present (examples c)
        && match m_global m, m_instance m, m_static m, m_inner m with
           | Some g, Some i, Some s, Some n =>
               forallb generable g && forallb generable i
               && forallb generable s && forallb generable n
           | _, _, _, _ => false
           end
  end.

(** The nodes one example adds to the examples section. *)
Definition exampleNodes (lang : CommentExample -> option string)
    (example : CommentExample) : list Node :=
  match ex_caption example with
  | Some caption => [paragraph [remarkNode caption]]
  | None => []
  end
  ++ [code (lang example) (ex_description example)].

(** A tag and the tags nested in it, each with its nesting level, in the
    order they are written; the tag itself is at [lvl]. *)
Fixpoint tagsAt (lvl : nat) (t : CommentTag) : list (nat * CommentTag) :=
  (lvl, t)
  :: match tag_properties t with
     | Some ps => flat_map (tagsAt (S lvl)) ps
     | None => []
     end.

(** The list items of a list node or of a list item, in document order:
    for each item its nesting level and its first child, the paragraph the
    item is for; the lists that follow the paragraph in an item are one
    level deeper. *)
Fixpoint itemsAt (lvl : nat) (n : Node) {struct n} : list (nat * Node) :=
  match n with
  | list_ _ items => flat_map (itemsAt lvl) items
  | listItem (first :: nested) =>
      (lvl, first) :: flat_map (itemsAt (S lvl)) nested
  | _ => []
  end.


(** [Object.assign({}, comment, {context: ctx})]. *)
Definition withContext (ctx : option CommentContext) (c : Comment) : Comment :=
  mkComment (name c) (kind c) (description c) (type c) (params c)
    (properties c) (returns c) (throws c) (sees c) (examples c) (augments c)
    ctx (version c) (since c) (copyright c) (author c) (license c)
    (deprecated c) (members c).

(** [comment.context.github.url], when there is one. *)
Definition githubUrl (c : Comment) : option string :=
  option_map gh_url (githubOf c).

(** ** Basic facts on [concat] and [filterBoolean] *)

Lemma filterBoolean_app (a b : list Elem) :
  filterBoolean (a ++ b) = filterBoolean a ++ filterBoolean b.
Proof.
  induction a as [|e a IH]; simpl; [reflexivity|].
  destruct e; simpl; rewrite IH; reflexivity.
Qed.

Lemma filterBoolean_nodes (l : list Node) : filterBoolean (nodes l) = l.
Proof.
  induction l as [|n l IH]; simpl; [reflexivity|]. now rewrite IH.
Qed.

Lemma filterBoolean_concat (a : list Elem) (v : JsVal) :
  filterBoolean (concat a v) = filterBoolean a ++ contribution v.
Proof.
  unfold contribution. destruct v as [e|b]; simpl; apply filterBoolean_app.
Qed.

Lemma contribution_false : contribution (JElem EFalse) = [].
Proof. reflexivity. Qed.

Lemma contribution_node (n : Node) : contribution (JElem (ENode n)) = [n].
Proof. reflexivity. Qed.

Lemma contribution_nodes (l : list Node) : contribution (JArr (nodes l)) = l.
Proof. unfold contribution. simpl. apply filterBoolean_nodes. Qed.

Lemma nonEmpty_nil (A : Type) : nonEmpty (@nil A) = false.
Proof. reflexivity. Qed.

Lemma nonEmpty_cons (A : Type) (x : A) (l : list A) : nonEmpty (x :: l) = true.
Proof. reflexivity. Qed.

(** ** Induction on the comment tree *)

(** Inside the fixpoint: the predicate holds on a member group that is
    there, by a nested induction on the group. *)
Local Ltac on_group g IH :=
  let lg := fresh "lg" in
  let Hlg := fresh "Hlg" in
  let l := fresh "l" in
  let E := fresh "E" in
  destruct g as [lg|]; [|intros l E; discriminate E];
  assert (Hlg : Forall _ lg)
    by (induction lg; constructor; [apply IH | assumption]);
  intros l E; injection E as <-; exact Hlg.

Lemma Comment_tree_ind (P : Comment -> Prop) :
  (forall c, (forall x, childOf x c -> P x) -> P c) ->
  forall c, P c.
Proof.
  intros step.
  fix IH 1.
  intros c. apply step.
  destruct c as [? ? ? ? ? ? ? ? ? ? ? ? ? ? ? ? ? ? mem].
  destruct mem as [[g i s n]|]; [|intros x [m l Hm _ _]; discriminate Hm].
  assert (Hg : forall l, g = Some l -> Forall P l) by on_group g IH.
  assert (Hi : forall l, i = Some l -> Forall P l) by on_group i IH.
  assert (Hs : forall l, s = Some l -> Forall P l) by on_group s IH.
  assert (Hn : forall l, n = Some l -> Forall P l) by on_group n IH.
  intros x [m l Hm Hl Hin]. simpl in Hm. injection Hm as <-. simpl in Hl.
  assert (Hall : Forall P l)
    by (destruct Hl as [E|[E|[E|E]]];
        [apply Hg|apply Hi|apply Hs|apply Hn]; exact E).
  rewrite Forall_forall in Hall. apply Hall, Hin.
Qed.

(** ** The member groups and the two layouts of [generate] *)

Section GeneratorFacts.

Variable formatType : FormatArg -> list Node.
Variable hljs_highlightAuto_language : string -> option string.
Variable config : DocumentationConfig.

Local Abbreviation generate := (generate formatType hljs_highlightAuto_language config).
Local Abbreviation sectionsOf := (sections formatType hljs_highlightAuto_language config).

Lemma reduceStep_Ok gen acc child :
  reduceStep gen (Ok acc) child = (g <- gen child ;; Ok (acc ++ g)).
Proof. reflexivity. Qed.

Lemma reduce_generated gen group outs :
  generated gen group outs ->
  forall acc,
    fold_left (reduceStep gen) group (Ok acc)
    = Ok (acc ++ List.concat outs).
Proof.
  induction 1 as [|child out group outs Hc _ IH]; intros acc; cbn [fold_left].
  - simpl. now rewrite app_nil_r.
  - rewrite reduceStep_Ok, Hc. cbn [bind]. rewrite IH.
    cbn [List.concat]. now rewrite app_assoc.
Qed.

Lemma reduce_Throw gen group e :
  fold_left (reduceStep gen) group (Throw e) = Throw e.
Proof. induction group as [|c group IH]; cbn [fold_left]; [reflexivity | exact IH]. Qed.

Lemma reduce_inv gen group :
  forall acc r,
    fold_left (reduceStep gen) group (Ok acc) = Ok r ->
    exists outs,
      generated gen group outs /\ r = acc ++ List.concat outs.
Proof.
  induction group as [|child group IH]; intros acc r; cbn [fold_left].
  - intros [= <-]. exists []. split; [constructor | simpl; now rewrite app_nil_r].
  - rewrite reduceStep_Ok.
    destruct (gen child) as [out|e] eqn:Hc; cbn [bind].
    + intros H. destruct (IH _ _ H) as (outs & Hg & ->).
      exists (out :: outs). split; [constructor; assumption|].
      cbn [List.concat]. now rewrite app_assoc.
    + rewrite reduce_Throw. discriminate.
Qed.

Lemma generateGroup_generated gen group outs :
  generated gen group outs ->
  exists v, generateGroup gen group = Ok v
            /\ contribution v = List.concat outs.
Proof.
  intros H. unfold generateGroup. destruct group as [|c group].
  - inversion H; subst. exists (JElem EFalse). split; reflexivity.
  - rewrite nonEmpty_cons.
    change (fold_left _ (c :: group) (Ok []))
      with (fold_left (reduceStep gen) (c :: group) (Ok [])).
    rewrite (reduce_generated H). simpl.
    eexists. split; [reflexivity|]. apply contribution_nodes.
Qed.

Lemma generateGroup_inv gen group v :
  generateGroup gen group = Ok v ->
  exists outs, generated gen group outs
               /\ contribution v = List.concat outs.
Proof.
  unfold generateGroup. destruct group as [|c group].
  - rewrite nonEmpty_nil. intros [= <-]. exists []. split; [constructor | reflexivity].
  - rewrite nonEmpty_cons.
    change (fold_left _ (c :: group) (Ok []))
      with (fold_left (reduceStep gen) (c :: group) (Ok [])).
    destruct (fold_left (reduceStep gen) (c :: group) (Ok [])) as [r|e] eqn:Hf;
      simpl; [|discriminate].
    intros [= <-]. destruct (reduce_inv _ _ _ Hf) as (outs & Hg & ->).
    exists outs. split; [assumption|]. apply contribution_nodes.
Qed.

Lemma generated_exists gen group :
  (forall child, In child group -> exists out, gen child = Ok out) ->
  exists outs, generated gen group outs.
Proof.
  induction group as [|c group IH]; intros H.
  - exists []. constructor.
  - destruct (H c (or_introl eq_refl)) as [out Hout].
    destruct IH as [outs Houts]; [intros; apply H; now right|].
    exists (out :: outs). constructor; assumption.
Qed.

(** [generate], unfolded once. *)
Lemma generate_eq depth comment :
  generate depth comment =
  if isNote comment then
    m <~ members comment ;;
    statics <~ m_static m ;;
    s <- generateGroup (generate (depth + 1)) statics ;;
    Ok (filterBoolean
          (concat
             (concat
                [ENode (heading depth [text (nameOrEmpty comment)])]
                (JElem match description comment with
                       | Some d => ENode (remarkNode d)
                       | None => EUndefined
                       end))
             s))
  else
    own <- sectionsOf depth comment ;;
    m <~ members comment ;;
    globals <~ m_global m ;;
    g <- generateGroup (generate (depth + 1)) globals ;;
    instances <~ m_instance m ;;
    i <- generateGroup (generate (depth + 1)) instances ;;
    statics <~ m_static m ;;
    s <- generateGroup (generate (depth + 1)) statics ;;
    inners <~ m_inner m ;;
    n <- generateGroup (generate (depth + 1)) inners ;;
    Ok (filterBoolean (concat (concat (concat (concat own g) i) s) n)).
Proof. destruct comment; reflexivity. Qed.

Lemma wellFormed_eq c :
  wellFormed c =
  sequencesPresent c
  && match members c with
     | None => false
     | Some m =>
         match m_global m, m_instance m, m_static m, m_inner m with
         | Some g, Some i, Some s, Some n =>
             forallb wellFormed g && forallb wellFormed i
             && forallb wellFormed s && forallb wellFormed n
         | _, _, _, _ => false
         end
     end.
Proof. destruct c; reflexivity. Qed.

(** What well-formedness gives for one entry. *)
Lemma wellFormed_inv c :
  wellFormed c = true ->
  sequencesPresent c = true
  /\ exists m g i s n,
      members c = Some m
      /\ m_global m = Some g /\ m_instance m = Some i
      /\ m_static m = Some s /\ m_inner m = Some n
      /\ forallb wellFormed g = true /\ forallb wellFormed i = true
      /\ forallb wellFormed s = true /\ forallb wellFormed n = true.
Proof.
  rewrite wellFormed_eq. intros H. apply andb_prop in H as [Hs H].
  split; [exact Hs|].
  destruct (members c) as [m|]; [|discriminate].
  destruct (m_global m) as [g|] eqn:Eg; [|discriminate].
  destruct (m_instance m) as [i|] eqn:Ei; [|discriminate].
  destruct (m_static m) as [s|] eqn:Es; [|discriminate].
  destruct (m_inner m) as [n|] eqn:En; [|discriminate].
  apply andb_prop in H as [H Hn]. apply andb_prop in H as [H Hst].
  apply andb_prop in H as [Hg Hi].
  exists m, g, i, s, n. repeat split; try reflexivity; assumption.
Qed.

Lemma sequencesPresent_inv c :
  sequencesPresent c = true ->
  exists ps prs rs ts ss es ags,
    params c = Some ps /\ properties c = Some prs /\ returns c = Some rs
    /\ throws c = Some ts /\ sees c = Some ss /\ examples c = Some es
    /\ augments c = Some ags.
Proof.
  unfold sequencesPresent. intros H.
  repeat (apply andb_prop in H as [H ?]).
  destruct (params c) as [ps|]; [|discriminate].
  destruct (properties c) as [prs|]; [|discriminate].
  destruct (returns c) as [rs|]; [|discriminate].
  destruct (throws c) as [ts|]; [|discriminate].
  destruct (sees c) as [ss|]; [|discriminate].
  destruct (examples c) as [es|]; [|discriminate].
  destruct (augments c) as [ags|]; [|discriminate].
  exists ps, prs, rs, ts, ss, es, ags. repeat split; reflexivity.
Qed.

Lemma sections_inv depth comment own :
  sectionsOf depth comment = Ok own ->
  exists a s p pr t e,
    augmentsLink comment = Ok a
    /\ seeLink comment = Ok s
    /\ paramSection formatType comment = Ok p
    /\ propertySection formatType comment = Ok pr
    /\ throwsSection formatType comment = Ok t
    /\ examplesSection hljs_highlightAuto_language config comment = Ok e
    /\ filterBoolean own = sectionNodes formatType depth comment a s p pr t e.
Proof.
  unfold sections.
  destruct (augmentsLink comment) as [a|]; [|discriminate].
  destruct (seeLink comment) as [s|]; [|discriminate].
  destruct (paramSection formatType comment) as [p|]; [|discriminate].
  destruct (propertySection formatType comment) as [pr|]; [|discriminate].
  destruct (throwsSection formatType comment) as [t|]; [|discriminate].
  destruct (examplesSection hljs_highlightAuto_language config comment) as [e|];
    [|discriminate].
  cbn [bind]. intros [= <-]. exists a, s, p, pr, t, e.
  repeat (split; [reflexivity|]).
  rewrite !filterBoolean_concat. unfold sectionNodes. cbn [filterBoolean].
  unfold contribution at 1. cbn [concat app filterBoolean].
  rewrite <- !app_assoc. reflexivity.
Qed.

Lemma sections_total depth comment :
  sequencesPresent comment = true ->
  exists own, sectionsOf depth comment = Ok own.
Proof.
  intros H.
  destruct (sequencesPresent_inv _ H)
    as (ps & prs & rs & ts & ss & es & ags & Hp & Hpr & _ & Ht & Hs & He & Ha).
  unfold sections, augmentsLink, seeLink, paramSection,
    propertySection, throwsSection, examplesSection.
  rewrite Hp, Hpr, Ht, Hs, He, Ha. cbn [bind]. eexists. reflexivity.
Qed.

Lemma forallb_In (A : Type) (f : A -> bool) (l : list A) (x : A) :
  forallb f l = true -> In x l -> f x = true.
Proof. intros H. rewrite forallb_forall in H. apply H. Qed.

(** A well-formed entry is generated without an exception, at any depth. *)
Lemma generate_total comment :
  wellFormed comment = true ->
  forall depth, exists out, generate depth comment = Ok out.
Proof.
  induction comment as [c IH] using Comment_tree_ind. intros Hwf depth.
  destruct (wellFormed_inv _ Hwf)
    as (Hseq & m & g & i & s & n & Hm & Hg & Hi & Hs & Hn & Wg & Wi & Ws & Wn).
  assert (group : forall l,
             (m_global m = Some l \/ m_instance m = Some l
              \/ m_static m = Some l \/ m_inner m = Some l) ->
             forallb wellFormed l = true ->
             exists v, generateGroup (generate (depth + 1)) l = Ok v).
  { intros l Hl Wl.
    destruct (@generated_exists (generate (depth + 1)) l) as [outs Houts].
    - intros child Hin. apply IH.
      + exact (@child_intro child c m l Hm Hl Hin).
      + exact (forallb_In _ _ _ Wl Hin).
    - destruct (generateGroup_generated Houts) as (v & Hv & _).
      exists v. exact Hv. }
  rewrite generate_eq. rewrite Hm, Hg, Hi, Hs, Hn.
  destruct (group s) as [vs Hvs]; [tauto | exact Ws |].
  destruct (isNote c).
  - rewrite Hvs. cbn [bind]. eexists. reflexivity.
  - destruct (sections_total depth c Hseq) as [own Hown].
    destruct (group g) as [vg Hvg]; [tauto | exact Wg |].
    destruct (group i) as [vi Hvi]; [tauto | exact Wi |].
    destruct (group n) as [vn Hvn]; [tauto | exact Wn |].
    rewrite Hown, Hvg, Hvi, Hvs, Hvn. cbn [bind]. eexists. reflexivity.
Qed.

(** The standard layout: the fixed-order sections of the entry, then what
    is generated for the four member groups, one level deeper. *)
Lemma generate_standard depth comment :
  isNote comment = false ->
  wellFormed comment = true ->
  exists own a s p pr t e m g i st n og oi os on,
    (sectionsOf depth comment = Ok own
     /\ filterBoolean own = sectionNodes formatType depth comment a s p pr t e)
    /\ (augmentsLink comment = Ok a
        /\ seeLink comment = Ok s
        /\ paramSection formatType comment = Ok p
        /\ propertySection formatType comment = Ok pr
        /\ throwsSection formatType comment = Ok t
        /\ examplesSection hljs_highlightAuto_language config comment = Ok e)
    /\ (members comment = Some m
        /\ m_global m = Some g /\ m_instance m = Some i
        /\ m_static m = Some st /\ m_inner m = Some n)
    /\ (generated (generate (depth + 1)) g og
        /\ generated (generate (depth + 1)) i oi
        /\ generated (generate (depth + 1)) st os
        /\ generated (generate (depth + 1)) n on)
    /\ generate depth comment
       = Ok (filterBoolean own
               ++ List.concat og ++ List.concat oi
               ++ List.concat os ++ List.concat on).
Proof.
  intros Hnote Hwf.
  destruct (wellFormed_inv _ Hwf)
    as (Hseq & m & g & i & st & n & Hm & Hg & Hi & Hs & Hn & Wg & Wi & Ws & Wn).
  assert (group : forall l, forallb wellFormed l = true ->
             exists outs v,
               generated (generate (depth + 1)) l outs
               /\ generateGroup (generate (depth + 1)) l = Ok v
               /\ contribution v = List.concat outs).
  { intros l Wl.
    destruct (@generated_exists (generate (depth + 1)) l) as [outs Houts].
    - intros child Hin. apply generate_total. exact (forallb_In _ _ _ Wl Hin).
    - destruct (generateGroup_generated Houts) as (v & Hv & Hc).
      exists outs, v. repeat split; assumption. }
  destruct (sections_total depth comment Hseq) as [own Hown].
  destruct (sections_inv _ _ Hown)
    as (a & s & p & pr & t & e & Ha & Hse & Hp & Hpr & Ht & He & Hnodes).
  destruct (group g Wg) as (og & vg & Gg & Eg & Cg).
  destruct (group i Wi) as (oi & vi & Gi & Ei & Ci).
  destruct (group st Ws) as (os & vs & Gs & Es & Cs).
  destruct (group n Wn) as (on & vn & Gn & En & Cn).
  exists own, a, s, p, pr, t, e, m, g, i, st, n, og, oi, os, on.
  split; [split; assumption|].
  split; [repeat split; assumption|].
  split; [repeat split; assumption|].
  split; [repeat split; assumption|].
  rewrite generate_eq, Hnote, Hown. cbn [bind].
  rewrite Hm, Hg, Eg. cbn [bind]. rewrite Hi, Ei. cbn [bind].
  rewrite Hs, Es. cbn [bind]. rewrite Hn, En. cbn [bind].
  rewrite !filterBoolean_concat, Cg, Ci, Cs, Cn.
  rewrite <- !app_assoc. reflexivity.
Qed.

(** The layout of a note: only the static group has to be there. *)
Lemma generate_note depth comment m statics :
  isNote comment = true ->
  members comment = Some m ->
  m_static m = Some statics ->
  forallb wellFormed statics = true ->
  exists outs,
    generated (generate (depth + 1)) statics outs
    /\ generate depth comment
       = Ok ([heading depth [text (nameOrEmpty comment)]]
               ++ descriptionNode comment ++ List.concat outs).
Proof.
  intros Hnote Hm Hs Ws.
  destruct (@generated_exists (generate (depth + 1)) statics) as [outs Houts].
  { intros child Hin. apply generate_total. exact (forallb_In _ _ _ Ws Hin). }
  destruct (generateGroup_generated Houts) as (v & Hv & Hc).
  exists outs. split; [exact Houts|].
  rewrite generate_eq, Hnote, Hm, Hs, Hv. cbn [bind].
  rewrite !filterBoolean_concat, Hc. unfold descriptionNode.
  destruct (description comment); reflexivity.
Qed.

End GeneratorFacts.

(** ** The anchor function *)

(** The slugger does disambiguate when it is kept across calls. *)
Example slug_reused :
  let '(first, slugger) := slug asciiSlugText (newGithubSlugger) "Foo Bar" in
  (first, fst (slug asciiSlugText slugger "foo-bar")) = ("foo-bar", "foo-bar-1").
Proof. reflexivity. Qed.

(** A slugger that is kept across two calls gives the second of two
    colliding texts the suffix "-1". *)
Lemma slug_twice (slugText : string -> string) (ns1 ns2 : string) :
  slugText ns1 = slugText ns2 ->
  let '(first, slugger) := slug slugText (newGithubSlugger) ns1 in
  first = slugText ns1
  /\ fst (slug slugText slugger ns2) = (slugText ns1 ++ "-1")%string.
Proof.
  intros H. unfold slug, newGithubSlugger. cbn [occurrences lookup].
  rewrite <- H. cbn [occurrences lookup]. rewrite String.eqb_refl.
  split; reflexivity.
Qed.

Lemma anchorFn_fresh (slugText : string -> string) (namespace : string) :
  anchorFn slugText namespace = ("#" ++ slugText namespace)%string.
Proof. reflexivity. Qed.

(** C1, as stated, fails: the two distinct namespaces "Foo Bar" and
    "foo-bar" slug to the same anchor text, and the anchor function gives
    both the same anchor "#foo-bar". *)
Lemma C1_same_anchor_for_colliding_namespaces :
  "Foo Bar" <> "foo-bar"
  /\ asciiSlugText "Foo Bar" = asciiSlugText "foo-bar"
  /\ ~ (anchorFn asciiSlugText "Foo Bar" <> anchorFn asciiSlugText "foo-bar").
Proof.
  split; [discriminate|]. split; [reflexivity|].
  intros H. apply H. reflexivity.
Qed.

(** C1, amended: the anchor function makes a new slugger on every call, so
    the anchor of a namespace is "#" followed by its slug text, with no
    suffix; two namespaces with the same slug text get the same anchor. *)
Theorem C1_anchor_is_hash_and_slug_text
    (slugText : string -> string) (ns1 ns2 : string) :
  slugText ns1 = slugText ns2 ->
  anchorFn slugText ns1 = ("#" ++ slugText ns1)%string
  /\ anchorFn slugText ns1 = anchorFn slugText ns2.
Proof.
  intros H. rewrite !anchorFn_fresh, H. split; reflexivity.
Qed.

Lemma C1_anchor_witness :
  anchorFn asciiSlugText "Foo Bar" = "#foo-bar"
  /\ anchorFn asciiSlugText "Foo Bar" = anchorFn asciiSlugText "foo-bar".
Proof.
  exact (C1_anchor_is_hash_and_slug_text asciiSlugText "Foo Bar" "foo-bar"
           eq_refl).
Defined.

(** ** The type section *)

Lemma sampleFormatType_rendersSignature : rendersSignature sampleFormatType.
Proof.
  intros s s' H. unfold signature in H. injection H as _ Hp Hr.
  unfold sampleFormatType. rewrite Hp, Hr. reflexivity.
Qed.



(** ** The metadata section *)

Lemma metaSection_eq (comment : Comment) :
  metaSection comment
  = if nonEmpty (filter (tagPresent comment) metaTags)
    then JArr [ENode (strong [text "Meta"]);
               ENode (list_ false
                        (map (metaItem comment)
                             (filter (tagPresent comment) metaTags)))]
    else JElem EFalse.
Proof. reflexivity. Qed.

Lemma itemTag_metaItem (comment : Comment) (tags : list string) :
  map itemTag (map (metaItem comment) tags) = map Some tags.
Proof.
  induction tags as [|tag tags IH]; [reflexivity|].
  cbn [map]. rewrite IH. reflexivity.
Qed.

Lemma metaSection_ext (comment other : Comment) :
  (forall tag, getTag other tag = getTag comment tag) ->
  metaSection other = metaSection comment.
Proof.
  intros Hsame. rewrite !metaSection_eq.
  assert (Hf : filter (tagPresent other) metaTags
               = filter (tagPresent comment) metaTags).
  { apply filter_ext. intros tag. unfold tagPresent. now rewrite Hsame. }
  rewrite Hf.
  assert (Hm : forall tags, map (metaItem other) tags = map (metaItem comment) tags).
  { intros tags. apply map_ext. intros tag. unfold metaItem. now rewrite Hsame. }
  rewrite Hm. reflexivity.
Qed.

(** The present tags, from the six values. *)
Lemma presentTags_eq (comment : Comment) :
  filter (tagPresent comment) metaTags
  = (if truthyStr (version comment) then ["version"] else [])
      ++ (if truthyStr (since comment) then ["since"] else [])
      ++ (if present (copyright comment) then ["copyright"] else [])
      ++ (if truthyStr (author comment) then ["author"] else [])
      ++ (if truthyStr (license comment) then ["license"] else [])
      ++ (if present (deprecated comment) then ["deprecated"] else []).
Proof.
  unfold tagPresent, getTag, metaTags, truthyStr, present. simpl.
  destruct (version comment) as [v|]; destruct (since comment) as [s|];
    destruct (copyright comment); destruct (author comment) as [a|];
    destruct (license comment) as [l|]; destruct (deprecated comment);
    simpl;
    repeat match goal with
           | |- context [negb (?x =? EmptyString)] => destruct (negb (x =? EmptyString))
           end;
    reflexivity.
Qed.

(** C8: when at least one metadata tag is present, the section is the
    "Meta" label and one list with exactly one item per present tag, in the
    order version, since, copyright, author, license, deprecated; the
    section is a function of the six values alone; with only since and
    deprecated there are two items, since and then deprecated. *)
Theorem C8_meta_items_in_fixed_order (comment : Comment) :
  let presentTags :=
    filter (tagPresent comment)
      ["version"; "since"; "copyright"; "author"; "license"; "deprecated"] in
  presentTags <> [] ->
  exists items,
    metaSection comment
    = JArr [ENode (strong [text "Meta"]); ENode (list_ false items)]
    /\ List.length items = List.length presentTags
    /\ map itemTag items = map Some presentTags
    /\ (forall other,
          (forall tag, getTag other tag = getTag comment tag) ->
          metaSection other = metaSection comment)
    /\ (forall s d,
          truthyStr (version comment) = false ->
          since comment = Some s -> s <> EmptyString ->
          copyright comment = None ->
          truthyStr (author comment) = false ->
          truthyStr (license comment) = false ->
          deprecated comment = Some d ->
          items
          = [listItem [paragraph [strong [text "since"]; text ": "; text s]];
             listItem [paragraph [strong [text "deprecated"]; text ": ";
                                  remarkNode d]]]).
Proof.
  intros presentTags Hne. fold metaTags in presentTags.
  exists (map (metaItem comment) presentTags).
  split; [|split; [|split; [|split]]].
  - rewrite metaSection_eq. fold presentTags.
    destruct presentTags; [contradiction | reflexivity].
  - apply length_map.
  - apply itemTag_metaItem.
  - intros other. apply metaSection_ext.
  - intros s d Hv Hs Hs' Hc Ha Hl Hd. subst presentTags.
    rewrite presentTags_eq, Hv, Ha, Hl, Hs, Hc, Hd.
    assert (Es : truthyStr (Some s) = true).
    { unfold truthyStr. destruct (String.eqb_spec s EmptyString); [contradiction | reflexivity]. }
    rewrite Es. cbn [present app map].
    unfold metaItem, getTag. simpl. rewrite Hs, Hd. reflexivity.
Qed.

Lemma C8_meta_items_witness :
  metaSection sampleDeprecated
  = JArr [ENode (strong [text "Meta"]);
          ENode (list_ false
                   [listItem [paragraph [strong [text "since"]; text ": ";
                                         text "1.2.0"]];
                    listItem [paragraph [strong [text "deprecated"]; text ": ";
                                         root [paragraph [text "use new"]]]]])].
Proof.
  destruct (C8_meta_items_in_fixed_order sampleDeprecated)
    as (items & Hsection & _ & _ & _ & Honly).
  - discriminate.
  - rewrite Hsection.
    rewrite (Honly "1.2.0" (mkRemark [paragraph [text "use new"]])
               eq_refl eq_refl ltac:(discriminate) eq_refl eq_refl eq_refl
               eq_refl).
    reflexivity.
Defined.

(** ** The layout of one entry *)

Lemma contribution_descriptionChildren (comment : Comment) :
  contribution (descriptionChildren (description comment))
  = descriptionBody comment.
Proof.
  unfold descriptionChildren, descriptionBody.
  destruct (description comment); [apply contribution_nodes | reflexivity].
Qed.

Lemma headingContent_eq (comment : Comment) :
  headingContent comment
  = match githubOf comment with
    | Some github => [link (gh_url github) None [text (nameOrEmpty comment)]]
    | None => [text (nameOrEmpty comment)]
    end.
Proof.
  unfold headingContent, githubOf.
  destruct (context comment) as [ctx|]; [|reflexivity].
  destruct (ctx_github ctx); reflexivity.
Qed.



(** C4: for a well-formed entry that is not a note, the output is the
    entry's own sections followed by the output of the global, instance,
    static and inner groups, in this order; the output of a group is the
    concatenation, in the order of the group, of what [generate] returns
    for each child at depth [depth + 1]. *)
Theorem C4_member_groups_in_order
    (formatType : FormatArg -> list Node)
    (hljs_highlightAuto_language : string -> option string)
    (config : DocumentationConfig) (depth : nat) (comment : Comment) :
  isNote comment = false ->
  wellFormed comment = true ->
  exists own m globals instances statics inners og oi os on,
    sections formatType hljs_highlightAuto_language config depth comment
    = Ok own
    /\ (members comment = Some m
        /\ m_global m = Some globals /\ m_instance m = Some instances
        /\ m_static m = Some statics /\ m_inner m = Some inners)
    /\ (Forall2 (fun child out =>
                   generate formatType hljs_highlightAuto_language config
                     (depth + 1) child = Ok out) globals og
        /\ Forall2 (fun child out =>
                      generate formatType hljs_highlightAuto_language config
                        (depth + 1) child = Ok out) instances oi
        /\ Forall2 (fun child out =>
                      generate formatType hljs_highlightAuto_language config
                        (depth + 1) child = Ok out) statics os
        /\ Forall2 (fun child out =>
                      generate formatType hljs_highlightAuto_language config
                        (depth + 1) child = Ok out) inners on)
    /\ generate formatType hljs_highlightAuto_language config depth comment
       = Ok (filterBoolean own
               ++ List.concat og ++ List.concat oi
               ++ List.concat os ++ List.concat on).
Proof.
  intros Hnote Hwf.
  destruct (generate_standard formatType hljs_highlightAuto_language config
              depth comment Hnote Hwf)
    as (own & a & s & p & pr & t & e & m & g & i & st & n & og & oi & os & on
        & (Hown & _) & _ & Hmem & Hkids & Hgen).
  exists own, m, g, i, st, n, og, oi, os, on.
  split; [exact Hown|]. split; [exact Hmem|]. split; [exact Hkids|].
  exact Hgen.
Qed.

Lemma C4_member_groups_witness :
  isNote sampleClass = false
  /\ wellFormed sampleClass = true
  /\ exists own render create,
       sections sampleFormatType sampleHighlight sampleConfig 2 sampleClass
       = Ok own
       /\ generate sampleFormatType sampleHighlight sampleConfig 3
            (entry "render" "function" [] [] [] []) = Ok render
       /\ generate sampleFormatType sampleHighlight sampleConfig 3
            (entry "create" "function" [] []
               [entry "defaults" "member" [] [] [] []] []) = Ok create
       /\ generate sampleFormatType sampleHighlight sampleConfig 2 sampleClass
          = Ok (filterBoolean own ++ render ++ create).
Proof.
  split; [reflexivity|]. split; [reflexivity|].
  destruct (@C4_member_groups_in_order
              sampleFormatType sampleHighlight sampleConfig 2 sampleClass
              eq_refl eq_refl)
    as (own & m & g & i & st & n & og & oi & os & on & Hown
        & (Hm & Hg & Hi & Hs & Hn) & (Gg & Gi & Gs & Gn) & Hgen).
  injection Hm as <-. injection Hg as <-. injection Hi as <-.
  injection Hs as <-. injection Hn as <-.
  inversion Gg; subst. inversion Gn; subst.
  inversion Gi as [|? render ? oi' Hrender Gi']; subst.
  inversion Gi'; subst.
  inversion Gs as [|? create ? os' Hcreate Gs']; subst.
  inversion Gs'; subst.
  exists own, render, create.
  split; [exact Hown|]. split; [exact Hrender|]. split; [exact Hcreate|].
  rewrite Hgen. cbn [List.concat app]. rewrite !app_nil_r. reflexivity.
Defined.

(** C5: for a note whose static group is present and well-formed, the
    output is the heading, the description (as one node, when there is
    one) and the concatenated output of the static children at depth
    [depth + 1], and nothing else; a note with the same name, description
    and static group has the same output, whatever its other properties
    and its global, instance and inner groups hold. *)
Theorem C5_note_layout
    (formatType : FormatArg -> list Node)
    (hljs_highlightAuto_language : string -> option string)
    (config : DocumentationConfig) (depth : nat) (comment : Comment)
    (m : CommentMembers Comment) (statics : list Comment) :
  isNote comment = true ->
  members comment = Some m ->
  m_static m = Some statics ->
  forallb wellFormed statics = true ->
  (exists outs,
      Forall2 (fun child out =>
                 generate formatType hljs_highlightAuto_language config
                   (depth + 1) child = Ok out) statics outs
      /\ generate formatType hljs_highlightAuto_language config depth comment
         = Ok ([heading depth [text (nameOrEmpty comment)]]
                 ++ match description comment with
                    | Some d => [root (r_children d)]
                    | None => []
                    end
                 ++ List.concat outs))
  /\ (forall other m',
        isNote other = true ->
        name other = name comment ->
        description other = description comment ->
        members other = Some m' ->
        m_static m' = Some statics ->
        generate formatType hljs_highlightAuto_language config depth other
        = generate formatType hljs_highlightAuto_language config depth comment).
Proof.
  intros Hnote Hm Hs Ws. split.
  - destruct (generate_note formatType hljs_highlightAuto_language config
                depth comment Hnote Hm Hs Ws) as (outs & Houts & Hgen).
    exists outs. split; [exact Houts|].
    rewrite Hgen. unfold descriptionNode, remarkNode. reflexivity.
  - intros other m' Hnote' Hname Hdesc Hm' Hs'.
    rewrite !generate_eq, Hnote, Hnote', Hm, Hm', Hs, Hs'.
    unfold nameOrEmpty. rewrite Hname, Hdesc. reflexivity.
Qed.

Lemma C5_note_witness :
  isNote sampleNote = true
  /\ exists outs,
       generate sampleFormatType sampleHighlight sampleConfig 2 sampleNote
       = Ok ([heading 2 [text "Guide"]; root [paragraph [text "Read me."]]]
               ++ List.concat outs)
       /\ List.length outs = 3.
Proof.
  split; [reflexivity|].
  destruct (@C5_note_layout
              sampleFormatType sampleHighlight sampleConfig 2 sampleNote
              (mkMembers
                 None
                 (Some [entry "hidden" "function" [] [] [] []])
                 (Some [entry "one" "member" [] [] [] [];
                        entry "two" "member" [] [] [] [];
                        entry "three" "member" [] [] [] []])
                 None)
              [entry "one" "member" [] [] [] [];
               entry "two" "member" [] [] [] [];
               entry "three" "member" [] [] [] []]
              eq_refl eq_refl eq_refl eq_refl)
    as ((outs & Houts & Hgen) & _).
  exists outs. split; [exact Hgen|].
  symmetry. exact (Forall2_length Houts).
Defined.



(** ** Exceptions *)

Lemma JsError_unique (e : JsError) : e = TypeError.
Proof. destruct e. reflexivity. Qed.

Lemma reduce_In_Throw gen (group : list Comment) (child : Comment) e :
  In child group ->
  gen child = Throw e ->
  forall memo, fold_left (reduceStep gen) group memo = Throw TypeError.
Proof.
  intros Hin Hc. induction group as [|x group IH]; [destruct Hin|].
  intros memo. cbn [fold_left].
  destruct memo as [acc|e0];
    [|rewrite (JsError_unique e0); apply reduce_Throw].
  destruct Hin as [->|Hin].
  - rewrite reduceStep_Ok, Hc. cbn [bind].
    rewrite (JsError_unique e). apply reduce_Throw.
  - apply IH, Hin.
Qed.

Lemma generate_members_missing
    (formatType : FormatArg -> list Node)
    (hljs_highlightAuto_language : string -> option string)
    (config : DocumentationConfig) (depth : nat) (comment : Comment) :
  members comment = None ->
  generate formatType hljs_highlightAuto_language config depth comment
  = Throw TypeError.
Proof.
  intros Hm. rewrite generate_eq, Hm.
  destruct (isNote comment); [reflexivity|].
  destruct (sections _ _ _ _ _) as [own|e]; cbn [bind];
    [reflexivity | now rewrite (JsError_unique e)].
Qed.

Lemma generate_static_missing
    (formatType : FormatArg -> list Node)
    (hljs_highlightAuto_language : string -> option string)
    (config : DocumentationConfig) (depth : nat) (comment : Comment)
    (m : CommentMembers Comment) :
  members comment = Some m ->
  m_static m = None ->
  generate formatType hljs_highlightAuto_language config depth comment
  = Throw TypeError.
Proof.
  intros Hm Hs. rewrite generate_eq, Hm, Hs.
  destruct (isNote comment); [reflexivity|].
  destruct (sections _ _ _ _ _) as [own|e]; cbn [bind];
    [|now rewrite (JsError_unique e)].
  destruct (m_global m) as [g|]; [|reflexivity].
  destruct (generateGroup _ g) as [vg|e]; cbn [bind];
    [|now rewrite (JsError_unique e)].
  destruct (m_instance m) as [i|]; [|reflexivity].
  destruct (generateGroup _ i) as [vi|e]; cbn [bind];
    [reflexivity | now rewrite (JsError_unique e)].
Qed.

(** [rawTree] in terms of the output of the top-level entries. *)
Lemma rawTree_generated
    (formatType : FormatArg -> list Node)
    (hljs_highlightAuto_language : string -> option string)
    (config : DocumentationConfig) (comments : list Comment)
    (outs : list (list Node)) :
  generated (generate formatType hljs_highlightAuto_language config 2)
    comments outs ->
  rawTree formatType hljs_highlightAuto_language config comments
  = Ok (root ([html "<!-- Generated by documentation.js. Update this documentation by updating the source code. -->"]
                ++ (if cfg_markdownToc config
                    then [heading 3 [text "Table of Contents"]]
                    else [])
                ++ List.concat outs
                ++ [thematicBreak])).
Proof.
  intros H. unfold rawTree.
  change (fold_left _ comments (Ok []))
    with (fold_left
            (reduceStep (generate formatType hljs_highlightAuto_language config 2))
            comments (Ok [])).
  rewrite (reduce_generated H). cbn [bind].
  unfold generatorComment, tableOfContentsHeading.
  rewrite <- !app_assoc. reflexivity.
Qed.

Lemma rawTree_inv
    (formatType : FormatArg -> list Node)
    (hljs_highlightAuto_language : string -> option string)
    (config : DocumentationConfig) (comments : list Comment) (tree : Node) :
  rawTree formatType hljs_highlightAuto_language config comments = Ok tree ->
  exists outs,
    generated (generate formatType hljs_highlightAuto_language config 2)
      comments outs.
Proof.
  unfold rawTree.
  change (fold_left _ comments (Ok []))
    with (fold_left
            (reduceStep (generate formatType hljs_highlightAuto_language config 2))
            comments (Ok [])).
  destruct (fold_left _ comments (Ok [])) as [body|e] eqn:Hf; [|discriminate].
  intros _. destruct (reduce_inv _ _ _ Hf) as (outs & Houts & _).
  exists outs. exact Houts.
Qed.

Lemma rawTree_total
    (formatType : FormatArg -> list Node)
    (hljs_highlightAuto_language : string -> option string)
    (config : DocumentationConfig) (comments : list Comment) :
  forallb wellFormed comments = true ->
  exists tree,
    rawTree formatType hljs_highlightAuto_language config comments = Ok tree.
Proof.
  intros Hwf.
  destruct (@generated_exists
              (generate formatType hljs_highlightAuto_language config 2)
              comments) as [outs Houts].
  - intros c Hin. apply generate_total. exact (forallb_In _ _ _ Hwf Hin).
  - rewrite (@rawTree_generated _ _ _ _ _ Houts). eexists. reflexivity.
Qed.

(** C9: for a well-formed forest [buildMarkdownAST] returns a tree; when it
    raises, the forest is not well-formed and no tree is returned; and it
    does raise when a top-level entry has no members, or no static group. *)
Theorem C9_errors_only_on_malformed_input
    (LinkerStack : Type)
    (namespaceResolver :
       DocumentationConfig -> list Comment -> (string -> string) -> LinkerStack)
    (_formatType : LinkerStack -> FormatArg -> list Node)
    (rerouteLinks : LinkerStack -> Node -> Node)
    (toc links : Node -> Node)
    (slugText : string -> string)
    (hljs_highlightAuto_language : HljsOptions -> string -> option string)
    (comments : list Comment) (config : DocumentationConfig) :
  let result :=
    buildMarkdownAST namespaceResolver _formatType rerouteLinks toc links
      slugText hljs_highlightAuto_language comments config in
  (forallb wellFormed comments = true -> exists tree, result = Ok tree)
  /\ (forall e, result = Throw e ->
                forallb wellFormed comments = false
                /\ forall tree, result <> Ok tree)
  /\ (forall comment,
        In comment comments ->
        members comment = None
        \/ (exists m, members comment = Some m /\ m_static m = None) ->
        result = Throw TypeError).
Proof.
  intros result.
  assert (total : forallb wellFormed comments = true ->
                  exists tree, result = Ok tree).
  { intros Hwf. subst result. unfold buildMarkdownAST.
    destruct (rawTree_total
                (_formatType (namespaceResolver config comments (anchorFn slugText)))
                (hljs_highlightAuto_language (hljsOptions config))
                config comments Hwf) as [tree Htree].
    rewrite Htree. cbn [bind]. eexists. reflexivity. }
  split; [exact total|]. split.
  - intros e He. split.
    + destruct (forallb wellFormed comments) eqn:Hwf; [|reflexivity].
      destruct (total eq_refl) as [tree Htree]. congruence.
    + intros tree Htree. congruence.
  - intros comment Hin Hm. subst result. unfold buildMarkdownAST, rawTree.
    assert (Hthrow :
              generate
                (_formatType
                   (namespaceResolver config comments (anchorFn slugText)))
                (hljs_highlightAuto_language (hljsOptions config))
                config 2 comment = Throw TypeError).
    { destruct Hm as [Hm|(m & Hm & Hs)];
        [apply generate_members_missing, Hm
        | exact (generate_static_missing _ _ _ 2 _ Hm Hs)]. }
    change (fold_left _ comments (Ok []))
      with (fold_left
              (reduceStep
                 (generate
                    (_formatType
                       (namespaceResolver config comments (anchorFn slugText)))
                    (hljs_highlightAuto_language (hljsOptions config))
                    config 2))
              comments (Ok [])).
    rewrite (reduce_In_Throw _ _ _ Hin Hthrow). reflexivity.
Qed.

Lemma C9_errors_witness :
  (exists tree,
      buildMarkdownAST sampleNamespaceResolver sampleFormatTypeWith
        sampleReroute samplePlugin samplePlugin asciiSlugText sampleHighlightWith
        [sampleClass] sampleConfig = Ok tree)
  /\ buildMarkdownAST sampleNamespaceResolver sampleFormatTypeWith
       sampleReroute samplePlugin samplePlugin asciiSlugText sampleHighlightWith
       [sampleClass; sampleMalformed] sampleConfig = Throw TypeError.
Proof.
  split.
  - exact (proj1 (@C9_errors_only_on_malformed_input
                    SampleLinker sampleNamespaceResolver sampleFormatTypeWith
                    sampleReroute samplePlugin samplePlugin asciiSlugText
                    sampleHighlightWith [sampleClass] sampleConfig) eq_refl).
  - exact (proj2 (proj2 (@C9_errors_only_on_malformed_input
                    SampleLinker sampleNamespaceResolver sampleFormatTypeWith
                    sampleReroute samplePlugin samplePlugin asciiSlugText
                    sampleHighlightWith [sampleClass; sampleMalformed] sampleConfig))
             sampleMalformed (or_intror (or_introl eq_refl))
             (or_introl eq_refl)).
Defined.

(** ** The nodes the sections put at the top level *)

Lemma Forall_contribution_false (P : Node -> Prop) :
  Forall P (contribution (JElem EFalse)).
Proof. constructor. Qed.

Lemma augmentsLink_shape comment a :
  augmentsLink comment = Ok a ->
  Forall (fun n => sectionNode n = true) (contribution a).
Proof.
  unfold augmentsLink. destruct (augments comment) as [ags|]; [|discriminate].
  intros [= <-]. destruct (nonEmpty ags); repeat constructor.
Qed.

Lemma seeLink_shape comment s :
  seeLink comment = Ok s ->
  Forall (fun n => sectionNode n = true) (contribution s).
Proof.
  unfold seeLink. destruct (sees comment) as [ss|]; [|discriminate].
  intros [= <-]. destruct (nonEmpty ss); repeat constructor.
Qed.

Lemma typeSection_shape formatType comment :
  Forall (fun n => sectionNode n = true)
         (contribution (typeSection formatType comment)).
Proof.
  unfold typeSection. destruct (type comment); [repeat constructor|].
  destruct (truthyStr (kind comment)); repeat constructor.
Qed.

(** [paramItem] and [paramSection] in terms of [paramList]. *)
Lemma paramItem_eq formatType (param : CommentTag) :
  paramItem formatType param
  = listItem
      (filterBoolean
         (concat
            [ENode (paramParagraph formatType param)]
            match tag_properties param with
            | None => JElem EUndefined
            | Some ps => paramList formatType ps
            end)).
Proof. destruct param as [? ? ? ? [[|]|]]; reflexivity. Qed.

Lemma propertyItem_eq formatType (property : CommentTag) :
  propertyItem formatType property
  = listItem
      (filterBoolean
         [ENode (propertyParagraph formatType property);
          match tag_properties property with
          | None => EUndefined
          | Some ps => ENode (propertyList formatType ps)
          end]).
Proof. destruct property as [? ? ? ? [|]]; reflexivity. Qed.

(** Below the level of the sections the two list builders differ on a tag
    whose nested [properties] is the empty array: [paramList] adds nothing,
    [propertyList] adds an empty list. *)
Example nested_empty_properties :
  paramItem sampleFormatType (mkTag "a" None None None (Some []))
  = listItem [paragraph [inlineCode "a"; text " "; text " "]]
  /\ propertyItem sampleFormatType (mkTag "a" None None None (Some []))
     = listItem [paragraph [inlineCode "a"; text " "; strong [text "any"];
                            text " "];
                 list_ false []].
Proof. split; reflexivity. Qed.

Lemma paramSection_eq formatType comment :
  paramSection formatType comment
  = (ps <~ params comment ;;
     Ok (if nonEmpty ps
         then JArr [ENode (list_ false (map (paramItem formatType) ps))]
         else JElem EFalse)).
Proof.
  unfold paramSection. destruct (params comment) as [[|param ps]|]; reflexivity.
Qed.

Lemma paramSection_shape formatType comment p :
  paramSection formatType comment = Ok p ->
  Forall (fun n => sectionNode n = true) (contribution p).
Proof.
  rewrite paramSection_eq. destruct (params comment) as [ps|]; [|discriminate].
  intros [= <-]. destruct (nonEmpty ps); repeat constructor.
Qed.

Lemma propertySection_shape formatType comment pr :
  propertySection formatType comment = Ok pr ->
  Forall (fun n => sectionNode n = true) (contribution pr).
Proof.
  unfold propertySection. destruct (properties comment) as [ps|]; [|discriminate].
  intros [= <-]. destruct (nonEmpty ps); repeat constructor.
Qed.

Lemma throwsSection_shape formatType comment t :
  throwsSection formatType comment = Ok t ->
  Forall (fun n => sectionNode n = true) (contribution t).
Proof.
  unfold throwsSection. destruct (throws comment) as [ts|]; [|discriminate].
  intros [= <-]. destruct (nonEmpty ts); repeat constructor.
Qed.

Lemma examples_fold_shape (lang : CommentExample -> option string)
    (es : list CommentExample) :
  forall memo,
    Forall (fun n => sectionNode n = true) (filterBoolean memo) ->
    Forall (fun n => sectionNode n = true)
      (filterBoolean
         (fold_left
            (fun memo example =>
               concat
                 (concat memo
                    (match ex_caption example with
                     | Some caption =>
                         JArr [ENode (paragraph [remarkNode caption])]
                     | None => JArr []
                     end))
                 (JArr [ENode (code (lang example) (ex_description example))]))
            es memo)).
Proof.
  induction es as [|example es IH]; intros memo Hmemo; cbn [fold_left].
  - exact Hmemo.
  - apply IH. rewrite !filterBoolean_concat.
    apply Forall_app. split; [apply Forall_app; split|].
    + exact Hmemo.
    + destruct (ex_caption example); repeat constructor.
    + repeat constructor.
Qed.

Lemma examplesSection_shape hljs_highlightAuto_language config comment e :
  examplesSection hljs_highlightAuto_language config comment = Ok e ->
  Forall (fun n => sectionNode n = true) (contribution e).
Proof.
  unfold examplesSection. destruct (examples comment) as [es|]; [|discriminate].
  intros [= <-]. destruct (nonEmpty es); [|constructor].
  unfold contribution. cbn [concat app filterBoolean].
  constructor; [reflexivity|].
  apply examples_fold_shape. constructor.
Qed.

Lemma metaSection_shape comment :
  Forall (fun n => sectionNode n = true) (contribution (metaSection comment)).
Proof.
  rewrite metaSection_eq.
  destruct (nonEmpty (filter (tagPresent comment) metaTags)); repeat constructor.
Qed.

Lemma filter_none (A : Type) (p : A -> bool) (l : list A) :
  Forall (fun x => p x = false) l -> filter p l = [].
Proof.
  induction 1 as [|x l Hx _ IH]; [reflexivity|].
  cbn [filter]. rewrite Hx. exact IH.
Qed.

Lemma Forall_false_of_shape (p : Node -> bool) (l : list Node) :
  (forall n, sectionNode n = true -> p n = false) ->
  Forall (fun n => sectionNode n = true) l ->
  Forall (fun n => p n = false) l.
Proof.
  intros Hp H. induction H as [|n l Hn _ IH]; constructor;
    [apply Hp, Hn | exact IH].
Qed.

(** Filtering the sections of an entry by a property [p] that no node made
    by a section builder has: what is left comes from the thematic break,
    the heading and the description's children. *)
Lemma sections_filter (p : Node -> bool)
    formatType hljs_highlightAuto_language config depth comment own :
  (forall n, sectionNode n = true -> p n = false) ->
  sections formatType hljs_highlightAuto_language config depth comment
  = Ok own ->
  filter p (filterBoolean own)
  = filter p [thematicBreak; heading depth (headingContent comment)]
      ++ filter p (descriptionBody comment).
Proof.
  intros Hp Hown.
  destruct (sections_inv _ _ _ _ _ Hown)
    as (a & s & pa & pr & t & e & Ha & Hs & Hpa & Hpr & Ht & He & ->).
  unfold sectionNodes.
  rewrite contribution_descriptionChildren, !filter_app.
  rewrite (filter_none p (l := contribution a)),
    (filter_none p (l := contribution s)),
    (filter_none p (l := contribution (typeSection formatType comment))),
    (filter_none p (l := contribution pa)),
    (filter_none p (l := contribution pr)),
    (filter_none p (l := contribution t)),
    (filter_none p (l := contribution e)),
    (filter_none p (l := contribution (metaSection comment)));
    try (apply (Forall_false_of_shape _ Hp);
         eauto using augmentsLink_shape, seeLink_shape, typeSection_shape,
           paramSection_shape, propertySection_shape, throwsSection_shape,
           examplesSection_shape, metaSection_shape).
  cbn [app]. rewrite !app_nil_r. reflexivity.
Qed.

(** ** Inverting a successful call of [generate] *)

Section Inversion.

Variable formatType : FormatArg -> list Node.
Variable hljs_highlightAuto_language : string -> option string.
Variable config : DocumentationConfig.

Local Abbreviation generate := (generate formatType hljs_highlightAuto_language config).

Lemma generate_standard_inv depth comment out :
  isNote comment = false ->
  generate depth comment = Ok out ->
  exists own m g i st n og oi os on,
    sections formatType hljs_highlightAuto_language config depth comment
    = Ok own
    /\ (members comment = Some m
        /\ m_global m = Some g /\ m_instance m = Some i
        /\ m_static m = Some st /\ m_inner m = Some n)
    /\ (generated (generate (depth + 1)) g og
        /\ generated (generate (depth + 1)) i oi
        /\ generated (generate (depth + 1)) st os
        /\ generated (generate (depth + 1)) n on)
    /\ out = filterBoolean own
               ++ List.concat og ++ List.concat oi
               ++ List.concat os ++ List.concat on.
Proof.
  intros Hnote. rewrite generate_eq, Hnote.
  destruct (sections _ _ _ depth comment) as [own|]; [|discriminate].
  cbn [bind].
  destruct (members comment) as [m|] eqn:Em; [|discriminate].
  destruct (m_global m) as [g|] eqn:Eg0; [|discriminate].
  destruct (generateGroup (generate (depth + 1)) g) as [vg|] eqn:Eg;
    [|discriminate].
  cbn [bind].
  destruct (m_instance m) as [i|] eqn:Ei0; [|discriminate].
  destruct (generateGroup (generate (depth + 1)) i) as [vi|] eqn:Ei;
    [|discriminate].
  cbn [bind].
  destruct (m_static m) as [st|] eqn:Es0; [|discriminate].
  destruct (generateGroup (generate (depth + 1)) st) as [vs|] eqn:Es;
    [|discriminate].
  cbn [bind].
  destruct (m_inner m) as [n|] eqn:En0; [|discriminate].
  destruct (generateGroup (generate (depth + 1)) n) as [vn|] eqn:En;
    [|discriminate].
  cbn [bind]. intros [= <-].
  destruct (generateGroup_inv _ _ Eg) as (og & Gg & Cg).
  destruct (generateGroup_inv _ _ Ei) as (oi & Gi & Ci).
  destruct (generateGroup_inv _ _ Es) as (os & Gs & Cs).
  destruct (generateGroup_inv _ _ En) as (on & Gn & Cn).
  exists own, m, g, i, st, n, og, oi, os, on.
  split; [reflexivity|]. split; [repeat split; assumption|].
  split; [repeat split; assumption|].
  rewrite !filterBoolean_concat, Cg, Ci, Cs, Cn, <- !app_assoc. reflexivity.
Qed.

Lemma generate_note_inv depth comment out :
  isNote comment = true ->
  generate depth comment = Ok out ->
  exists m st outs,
    members comment = Some m
    /\ m_static m = Some st
    /\ generated (generate (depth + 1)) st outs
    /\ out = [heading depth [text (nameOrEmpty comment)]]
               ++ descriptionNode comment ++ List.concat outs.
Proof.
  intros Hnote. rewrite generate_eq, Hnote.
  destruct (members comment) as [m|] eqn:Em; [|discriminate].
  destruct (m_static m) as [st|] eqn:Es0; [|discriminate].
  destruct (generateGroup (generate (depth + 1)) st) as [vs|] eqn:Es;
    [|discriminate].
  cbn [bind]. intros [= <-].
  destruct (generateGroup_inv _ _ Es) as (outs & Gs & Cs).
  exists m, st, outs. repeat split; try reflexivity; try assumption.
  rewrite !filterBoolean_concat, Cs. unfold descriptionNode.
  destruct (description comment); reflexivity.
Qed.

End Inversion.

(** ** Filtering the output by a property of nodes *)

Lemma entriesAt_eq (lvl : nat) (comment : Comment) :
  entriesAt lvl comment
  = (lvl, comment)
      :: match members comment with
         | None => []
         | Some m =>
             let below (o : option (list Comment)) :=
               match o with
               | Some l => flat_map (entriesAt (S lvl)) l
               | None => []
               end in
             if isNote comment
             then below (m_static m)
             else below (m_global m) ++ below (m_instance m)
                  ++ below (m_static m) ++ below (m_inner m)
         end.
Proof. destruct comment; reflexivity. Qed.

Lemma flat_map_flat_map (A B C : Type) (f : A -> list B) (g : B -> list C)
    (l : list A) :
  flat_map g (flat_map f l) = flat_map (fun x => flat_map g (f x)) l.
Proof.
  induction l as [|x l IH]; [reflexivity|].
  cbn [flat_map]. rewrite flat_map_app, IH. reflexivity.
Qed.

Lemma generated_filter (p : Node -> bool) (F : Comment -> list Node)
    gen (group : list Comment) (outs : list (list Node)) :
  generated gen group outs ->
  (forall child out, In child group -> gen child = Ok out ->
                     filter p out = F child) ->
  filter p (List.concat outs) = flat_map F group.
Proof.
  induction 1 as [|child out group outs Hc _ IH]; intros HF; [reflexivity|].
  cbn [List.concat flat_map]. rewrite filter_app.
  rewrite (HF child out (or_introl eq_refl) Hc), IH; [reflexivity|].
  intros child' out' Hin. apply HF. now right.
Qed.

Section Filtering.

Variable formatType : FormatArg -> list Node.
Variable hljs_highlightAuto_language : string -> option string.
Variable config : DocumentationConfig.
Variable p : Node -> bool.
Variable base : nat.

Hypothesis p_sectionNode : forall n, sectionNode n = true -> p n = false.
Hypothesis p_thematicBreak : p thematicBreak = false.
Hypothesis p_root : forall children, p (root children) = false.

Hypothesis p_html : forall value, p (html value) = false.

Local Abbreviation keptHere := (kept p base).

Lemma generate_filter (comment : Comment) :
  forall lvl out,
    generate formatType hljs_highlightAuto_language config (base + lvl) comment
    = Ok out ->
    filter p out = flat_map keptHere (entriesAt lvl comment).
Proof.
  induction comment as [c IH] using Comment_tree_ind. intros lvl out Hout.
  assert (group : forall m l outs,
             members c = Some m ->
             (m_global m = Some l \/ m_instance m = Some l
              \/ m_static m = Some l \/ m_inner m = Some l) ->
             generated
               (generate formatType hljs_highlightAuto_language config
                  (base + lvl + 1)) l outs ->
             filter p (List.concat outs)
             = flat_map keptHere (flat_map (entriesAt (S lvl)) l)).
  { intros m l outs Hm Hl Houts. rewrite flat_map_flat_map.
    eapply generated_filter; [exact Houts|]. intros child out' Hin Hc.
    apply (IH child (@child_intro child c m l Hm Hl Hin)).
    replace (base + S lvl) with (base + lvl + 1) by lia. exact Hc. }
  rewrite entriesAt_eq. cbn [flat_map]. unfold kept at 1.
  unfold headingOf, passedThrough. cbn [fst snd].
  destruct (isNote c) eqn:Hnote.
  - destruct (generate_note_inv _ _ _ _ _ Hnote Hout)
      as (m & st & outs & Hm & Hs & Houts & ->).
    rewrite Hm, Hs. cbn zeta. rewrite !filter_app.
    rewrite (group m st outs Hm (or_intror (or_intror (or_introl Hs))) Houts).
    assert (Hd : filter p (descriptionNode c) = []).
    { unfold descriptionNode, remarkNode.
      destruct (description c); [|reflexivity].
      cbn [filter]. now rewrite p_root. }
    rewrite Hd, app_nil_r. reflexivity.
  - destruct (generate_standard_inv _ _ _ _ _ Hnote Hout)
      as (own & m & g & i & st & n & og & oi & os & on & Hown
          & (Hm & Hg & Hi & Hs & Hn) & (Gg & Gi & Gs & Gn) & ->).
    rewrite Hm, Hg, Hi, Hs, Hn. cbn zeta.
    rewrite !filter_app, !flat_map_app.
    rewrite (sections_filter p _ _ _ _ _ p_sectionNode Hown).
    rewrite (group m g og Hm (or_introl Hg) Gg),
      (group m i oi Hm (or_intror (or_introl Hi)) Gi),
      (group m st os Hm (or_intror (or_intror (or_introl Hs))) Gs),
      (group m n on Hm (or_intror (or_intror (or_intror Hn))) Gn).
    cbn [filter]. rewrite p_thematicBreak. rewrite <- !app_assoc. reflexivity.
Qed.

(** The same for the children of the root of [rawTree], the table of
    contents heading apart. *)
Lemma rawTree_filter (comments : list Comment) (children : list Node) :
  base = 2 ->
  rawTree formatType hljs_highlightAuto_language config comments
  = Ok (root children) ->
  filter p children
  = filter p (if cfg_markdownToc config
              then [heading 3 [text "Table of Contents"]]
              else [])
      ++ flat_map keptHere (entries comments).
Proof.
  intros Hbase Hraw.
  destruct (rawTree_inv _ _ _ _ Hraw) as [outs Houts].
  rewrite (@rawTree_generated _ _ _ _ _ Houts) in Hraw.
  injection Hraw as <-. cbn [filter]. rewrite p_html, !filter_app.
  cbn [filter]. rewrite p_thematicBreak, app_nil_r.
  f_equal. unfold entries. rewrite flat_map_flat_map.
  eapply generated_filter; [exact Houts|]. intros child out _ Hc.
  apply generate_filter. subst base. exact Hc.
Qed.

End Filtering.

(** ** Heading depths *)

Lemma sectionNode_not_heading (n : Node) :
  sectionNode n = true -> isHeading n = false.
Proof. destruct n; simpl; (discriminate || reflexivity). Qed.

(** C2: the headings among the children of the generated root are, in
    order: the table of contents heading when it is enabled, and then, for
    every entry the generator visits, the heading made for it, whose depth
    is 2 plus the entry's nesting level, followed by the headings that were
    already among the children of its description; so the heading of every
    visited entry at level [lvl] is in the output with depth [2 + lvl]. *)
Theorem C2_heading_depth_is_two_plus_level
    (formatType : FormatArg -> list Node)
    (hljs_highlightAuto_language : string -> option string)
    (config : DocumentationConfig) (comments : list Comment) :
  forallb wellFormed comments = true ->
  exists children,
    rawTree formatType hljs_highlightAuto_language config comments
    = Ok (root children)
    /\ filter isHeading children
       = (if cfg_markdownToc config
          then [heading 3 [text "Table of Contents"]]
          else [])
           ++ flat_map
                (fun le =>
                   heading (2 + fst le)
                     (if isNote (snd le)
                      then [text (nameOrEmpty (snd le))]
                      else headingContent (snd le))
                     :: passedThrough isHeading (snd le))
                (entries comments)
    /\ (forall lvl e,
          In (lvl, e) (entries comments) ->
          In (heading (2 + lvl)
                (if isNote e
                 then [text (nameOrEmpty e)]
                 else headingContent e))
             children).
Proof.
  intros Hwf.
  destruct (@generated_exists
              (generate formatType hljs_highlightAuto_language config 2)
              comments) as [outs Houts].
  { intros c Hin. apply generate_total. exact (forallb_In _ _ _ Hwf Hin). }
  pose proof (@rawTree_generated _ _ _ _ _ Houts) as Hraw.
  eexists. split; [exact Hraw|].
  pose proof (@rawTree_filter formatType hljs_highlightAuto_language config
                isHeading 2 sectionNode_not_heading eq_refl
                (fun _ => eq_refl) (fun _ => eq_refl)
                comments _ eq_refl Hraw) as Hfilter.
  assert (Heq : filter isHeading (if cfg_markdownToc config
                                  then [heading 3 [text "Table of Contents"]]
                                  else [])
                = (if cfg_markdownToc config
                   then [heading 3 [text "Table of Contents"]]
                   else []))
    by (destruct (cfg_markdownToc config); reflexivity).
  rewrite Heq in Hfilter. split; [exact Hfilter|].
  intros lvl e Hin.
  apply (proj1 (filter_In isHeading _ _)). rewrite Hfilter.
  apply in_or_app. right. apply in_flat_map. exists (lvl, e).
  split; [exact Hin | left; reflexivity].
Qed.

Lemma C2_heading_depth_witness :
  exists children,
    rawTree sampleFormatType sampleHighlight sampleConfig [sampleClass]
    = Ok (root children)
    /\ filter isHeading children
       = [heading 3 [text "Table of Contents"];
          heading 2
            [link "https://github.com/o/r/blob/main/src/widget.js#L12" None
               [text "Widget"]];
          heading 3 [text "render"];
          heading 3 [text "create"];
          heading 4 [text "defaults"]].
Proof.
  destruct (@C2_heading_depth_is_two_plus_level
              sampleFormatType sampleHighlight sampleConfig [sampleClass]
              eq_refl) as (children & Hraw & Hfilter & _).
  exists children. split; [exact Hraw | exact Hfilter].
Defined.

(** ** The builders that are never called *)

Lemma sectionNode_not_returnsOrSource (n : Node) :
  sectionNode n = true -> isReturnsOrSource n = false.
Proof.
  unfold isReturnsOrSource.
  destruct n as [| | | | | | [|[] ?] | | | | | |]; simpl;
    try (discriminate || reflexivity).
  intros H. apply String.eqb_eq in H. subst. reflexivity.
Qed.

Lemma contribution_map_ENode (A : Type) (f : A -> Node) (l : list A) :
  contribution (JArr (map (fun x => ENode (f x)) l)) = map f l.
Proof.
  unfold contribution. cbn [concat app].
  induction l as [|x l IH]; [reflexivity|].
  cbn [map filterBoolean]. now rewrite IH.
Qed.

(** C10: the paragraphs that open with "Returns:" or "Source: " among the
    children of the generated root are exactly those that were already
    among the children of the descriptions of the visited entries, copied
    unchanged; when the descriptions have none, the root has none, although
    [returnsSection] builds "Returns:" paragraphs for an entry with returns
    and [githubLink] a "Source: " paragraph for an entry with GitHub origin
    information. *)
Theorem C10_returns_and_source_sections_absent
    (formatType : FormatArg -> list Node)
    (hljs_highlightAuto_language : string -> option string)
    (config : DocumentationConfig) (comments : list Comment)
    (children : list Node) :
  rawTree formatType hljs_highlightAuto_language config comments
  = Ok (root children) ->
  filter isReturnsOrSource children
  = flat_map (fun le => passedThrough isReturnsOrSource (snd le))
      (entries comments)
  /\ ((forall lvl e, In (lvl, e) (entries comments) ->
                     passedThrough isReturnsOrSource e = []) ->
      forall n, In n children ->
                isReturnsParagraph n = false /\ isSourceParagraph n = false)
  /\ (forall comment r rs,
        returns comment = Some (r :: rs) ->
        exists a,
          returnsSection formatType comment = Ok (JArr a)
          /\ List.length (contribution (JArr a)) = S (List.length rs)
          /\ Forall (fun n => isReturnsParagraph n = true)
               (contribution (JArr a)))
  /\ (forall comment github,
        githubOf comment = Some github ->
        exists n,
          githubLink comment = JElem (ENode n)
          /\ isSourceParagraph n = true).
Proof.
  intros Hraw.
  pose proof (@rawTree_filter formatType hljs_highlightAuto_language config
                isReturnsOrSource 2 sectionNode_not_returnsOrSource eq_refl
                (fun _ => eq_refl) (fun _ => eq_refl)
                comments children eq_refl Hraw) as Hfilter.
  assert (Htoc : filter isReturnsOrSource
                   (if cfg_markdownToc config
                    then [heading 3 [text "Table of Contents"]]
                    else []) = [])
    by (destruct (cfg_markdownToc config); reflexivity).
  rewrite Htoc in Hfilter. cbn [app] in Hfilter.
  split; [exact Hfilter|]. split; [|split].
  - intros Hclean n Hin.
    assert (Hn : isReturnsOrSource n = false).
    { destruct (isReturnsOrSource n) eqn:E; [|reflexivity]. exfalso.
      assert (Hin' : In n (filter isReturnsOrSource children))
        by (apply filter_In; split; assumption).
      rewrite Hfilter in Hin'. apply in_flat_map in Hin'.
      destruct Hin' as ([lvl e] & Hle & Hne).
      change (In n (passedThrough isReturnsOrSource e)) in Hne.
      rewrite (Hclean lvl e Hle) in Hne. destruct Hne. }
    unfold isReturnsOrSource in Hn. apply orb_false_iff in Hn. exact Hn.
  - intros comment r rs Hr. unfold returnsSection. rewrite Hr.
    rewrite nonEmpty_cons. cbn [bind]. eexists. split; [reflexivity|].
    rewrite (contribution_map_ENode
               (fun returns =>
                  paragraph
                    ([text "Returns:"; text " ";
                      strong (formatType (typeArg (tag_type returns)));
                      text " "]
                       ++ match tag_description returns with
                          | Some d => r_children d
                          | None => []
                          end))).
    split; [rewrite length_map; reflexivity|].
    apply Forall_map. apply Forall_forall. intros x _. reflexivity.
  - intros comment github Hg. unfold githubOf in Hg. unfold githubLink.
    destruct (context comment) as [ctx|]; [|discriminate].
    rewrite Hg. eexists. split; reflexivity.
Qed.

Lemma C10_returns_and_source_witness :
  returns sampleClass = Some [typedTag EmptyString "Widget"]
  /\ githubOf sampleClass
     = Some (mkGitHub "src/widget.js"
               "https://github.com/o/r/blob/main/src/widget.js#L12")
  /\ exists children,
       rawTree sampleFormatType sampleHighlight sampleConfig [sampleClass]
       = Ok (root children)
       /\ filter isReturnsOrSource children = [].
Proof.
  split; [reflexivity|]. split; [reflexivity|].
  eexists. split; [vm_compute; reflexivity|].
  refine (proj1 (@C10_returns_and_source_sections_absent
                   sampleFormatType sampleHighlight sampleConfig [sampleClass]
                   _ _)).
  vm_compute. reflexivity.
Defined.

(** ** When generation succeeds *)

Lemma generable_eq (c : Comment) :
  generable c
  = match members c with
    | None => false
    | Some m =>
        if isNote c
        then match m_static m with
             | Some s => forallb generable s
             | None => false
             end
        else
          present (augments c) && present (sees c) && present (params c)
          && present (properties c) && present (throws c)
          && present (examples c)
          && match m_global m, m_instance m, m_static m, m_inner m with
             | Some g, Some i, Some s, Some n =>
                 forallb generable g && forallb generable i
                 && forallb generable s && forallb generable n
             | _, _, _, _ => false
             end
    end.
Proof. destruct c; reflexivity. Qed.

(** The section chain succeeds exactly when the six sequences whose length
    a builder reads are there; [returns] is not among them. *)
Lemma sections_Ok_iff
    (formatType : FormatArg -> list Node)
    (hljs_highlightAuto_language : string -> option string)
    (config : DocumentationConfig) (depth : nat) (comment : Comment) :
  (exists own,
      sections formatType hljs_highlightAuto_language config depth comment
      = Ok own)
  <-> present (augments comment) && present (sees comment)
      && present (params comment) && present (properties comment)
      && present (throws comment) && present (examples comment) = true.
Proof.
  unfold sections, augmentsLink, seeLink, paramSection, propertySection,
    throwsSection, examplesSection.
  destruct (augments comment); cbn [present andb bind];
    [|split; [intros [own H]; discriminate H | discriminate]].
  destruct (sees comment); cbn [present andb bind];
    [|split; [intros [own H]; discriminate H | discriminate]].
  destruct (params comment); cbn [present andb bind];
    [|split; [intros [own H]; discriminate H | discriminate]].
  destruct (properties comment); cbn [present andb bind];
    [|split; [intros [own H]; discriminate H | discriminate]].
  destruct (throws comment); cbn [present andb bind];
    [|split; [intros [own H]; discriminate H | discriminate]].
  destruct (examples comment); cbn [present andb bind];
    [|split; [intros [own H]; discriminate H | discriminate]].
  split; [reflexivity | intros _; eexists; reflexivity].
Qed.

Lemma generated_In gen (group : list Comment) (outs : list (list Node)) :
  generated gen group outs ->
  forall child, In child group -> exists out, gen child = Ok out.
Proof.
  induction 1 as [|x out group outs Hx _ IH]; intros child Hin;
    [destruct Hin|].
  destruct Hin as [<-|Hin]; [exists out; exact Hx | apply IH, Hin].
Qed.

Lemma forallb_intro (A : Type) (f : A -> bool) (l : list A) :
  (forall x, In x l -> f x = true) -> forallb f l = true.
Proof. intros H. apply forallb_forall. exact H. Qed.

Section Success.

Variable formatType : FormatArg -> list Node.
Variable hljs_highlightAuto_language : string -> option string.
Variable config : DocumentationConfig.

Local Abbreviation generateHere :=
  (generate formatType hljs_highlightAuto_language config).

(** A group is generated when each of its entries is. *)
Lemma generateGroup_Ok depth (group : list Comment) :
  (forall child, In child group ->
                 exists out, generateHere (depth + 1) child = Ok out) ->
  exists v, generateGroup (generateHere (depth + 1)) group = Ok v.
Proof.
  intros H. destruct (generated_exists _ _ H) as [outs Houts].
  destruct (generateGroup_generated Houts) as (v & Hv & _).
  exists v. exact Hv.
Qed.

Lemma generate_Ok_generable (comment : Comment) :
  forall depth out,
    generateHere depth comment = Ok out -> generable comment = true.
Proof.
  induction comment as [c IH] using Comment_tree_ind. intros depth out Hout.
  assert (group : forall m l outs,
             members c = Some m ->
             (m_global m = Some l \/ m_instance m = Some l
              \/ m_static m = Some l \/ m_inner m = Some l) ->
             generated (generateHere (depth + 1)) l outs ->
             forallb generable l = true).
  { intros m l outs Hm Hl Houts. apply forallb_intro. intros child Hin.
    destruct (generated_In Houts child Hin) as [out' Hout'].
    exact (IH child (@child_intro child c m l Hm Hl Hin) _ _ Hout'). }
  rewrite generable_eq. destruct (isNote c) eqn:Hnote.
  - destruct (generate_note_inv _ _ _ _ _ Hnote Hout)
      as (m & st & outs & Hm & Hs & Houts & _).
    rewrite Hm, Hs.
    exact (group m st outs Hm (or_intror (or_intror (or_introl Hs))) Houts).
  - destruct (generate_standard_inv _ _ _ _ _ Hnote Hout)
      as (own & m & g & i & st & n & og & oi & os & on & Hown
          & (Hm & Hg & Hi & Hs & Hn) & (Gg & Gi & Gs & Gn) & _).
    rewrite Hm, Hg, Hi, Hs, Hn.
    rewrite (proj1 (sections_Ok_iff _ _ _ _ _) (ex_intro _ own Hown)).
    rewrite (group m g og Hm (or_introl Hg) Gg),
      (group m i oi Hm (or_intror (or_introl Hi)) Gi),
      (group m st os Hm (or_intror (or_intror (or_introl Hs))) Gs),
      (group m n on Hm (or_intror (or_intror (or_intror Hn))) Gn).
    reflexivity.
Qed.

Lemma generable_generate_Ok (comment : Comment) :
  generable comment = true ->
  forall depth, exists out, generateHere depth comment = Ok out.
Proof.
  induction comment as [c IH] using Comment_tree_ind. intros Hgen depth.
  rewrite generable_eq in Hgen.
  destruct (members c) as [m|] eqn:Hm; [|discriminate].
  assert (group : forall l,
             (m_global m = Some l \/ m_instance m = Some l
              \/ m_static m = Some l \/ m_inner m = Some l) ->
             forallb generable l = true ->
             exists v, generateGroup (generateHere (depth + 1)) l = Ok v).
  { intros l Hl Wl. apply generateGroup_Ok. intros child Hin.
    apply (IH child (@child_intro child c m l Hm Hl Hin)).
    exact (forallb_In _ _ _ Wl Hin). }
  rewrite generate_eq, Hm. destruct (isNote c).
  - destruct (m_static m) as [st|] eqn:Hs; [|discriminate].
    destruct (group st) as [v Hv]; [tauto | exact Hgen |].
    rewrite Hv. cbn [bind]. eexists. reflexivity.
  - apply andb_prop in Hgen as [Hseq Hgroups].
    destruct (proj2 (sections_Ok_iff formatType hljs_highlightAuto_language
                       config depth c) Hseq) as [own Hown].
    destruct (m_global m) as [g|] eqn:Hg; [|discriminate].
    destruct (m_instance m) as [i|] eqn:Hi; [|discriminate].
    destruct (m_static m) as [st|] eqn:Hs; [|discriminate].
    destruct (m_inner m) as [n|] eqn:Hn; [|discriminate].
    apply andb_prop in Hgroups as [Hgroups Wn].
    apply andb_prop in Hgroups as [Hgroups Ws].
    apply andb_prop in Hgroups as [Wg Wi].
    destruct (group g) as [vg Hvg]; [tauto | exact Wg |].
    destruct (group i) as [vi Hvi]; [tauto | exact Wi |].
    destruct (group st) as [vs Hvs]; [tauto | exact Ws |].
    destruct (group n) as [vn Hvn]; [tauto | exact Wn |].
    rewrite Hown. cbn [bind]. rewrite Hvg. cbn [bind]. rewrite Hvi.
    cbn [bind]. rewrite Hvs. cbn [bind]. rewrite Hvn. cbn [bind].
    eexists. reflexivity.
Qed.

End Success.

(** X1: [generate] returns, at any depth, exactly for the entries that
    have what it reads: a note and every entry below it through static
    groups needs [members.static]; any other visited entry needs augments,
    sees, params, properties, throws, examples and its four member groups.
    Nothing else can make it raise: not an absent [returns], and for a
    note not its sequences or its other groups. *)
Theorem X1_generate_succeeds_iff_generable
    (formatType : FormatArg -> list Node)
    (hljs_highlightAuto_language : string -> option string)
    (config : DocumentationConfig) (depth : nat) (comment : Comment) :
  (exists out,
      generate formatType hljs_highlightAuto_language config depth comment
      = Ok out)
  <-> generable comment = true.
Proof.
  split.
  - intros [out Hout]. exact (generate_Ok_generable _ _ _ _ _ Hout).
  - intros Hgen. apply generable_generate_Ok. exact Hgen.
Qed.

Lemma X1_generate_succeeds_witness :
  wellFormed sampleNote = false
  /\ generable sampleNote = true
  /\ exists out,
       generate sampleFormatType sampleHighlight sampleConfig 2 sampleNote
       = Ok out.
Proof.
  split; [reflexivity|]. split; [reflexivity|].
  exact (proj2 (X1_generate_succeeds_iff_generable
                  sampleFormatType sampleHighlight sampleConfig 2 sampleNote)
           eq_refl).
Defined.

Lemma rawTree_Ok_iff
    (formatType : FormatArg -> list Node)
    (hljs_highlightAuto_language : string -> option string)
    (config : DocumentationConfig) (comments : list Comment) :
  (exists tree,
      rawTree formatType hljs_highlightAuto_language config comments = Ok tree)
  <-> forallb generable comments = true.
Proof.
  split.
  - intros [tree Htree]. destruct (rawTree_inv _ _ _ _ Htree) as [outs Houts].
    apply forallb_intro. intros c Hin.
    destruct (generated_In Houts c Hin) as [out Hout].
    eapply generate_Ok_generable. exact Hout.
  - intros Hgen.
    destruct (@generated_exists
                (generate formatType hljs_highlightAuto_language config 2)
                comments) as [outs Houts].
    + intros c Hin. apply generable_generate_Ok.
      exact (forallb_In _ _ _ Hgen Hin).
    + rewrite (@rawTree_generated _ _ _ _ _ Houts). eexists. reflexivity.
Qed.

(** X2: [buildMarkdownAST] returns a tree exactly when every top-level
    entry is generable, that is when no entry the generator visits, at any
    level, lacks a property it reads; otherwise it raises, whatever the
    configuration and wherever in the forest the entry is. *)
Theorem X2_buildMarkdownAST_succeeds_iff_generable
    (LinkerStack : Type)
    (namespaceResolver :
       DocumentationConfig -> list Comment -> (string -> string) -> LinkerStack)
    (_formatType : LinkerStack -> FormatArg -> list Node)
    (rerouteLinks : LinkerStack -> Node -> Node)
    (toc links : Node -> Node)
    (slugText : string -> string)
    (hljs_highlightAuto_language : HljsOptions -> string -> option string)
    (comments : list Comment) (config : DocumentationConfig) :
  let result :=
    buildMarkdownAST namespaceResolver _formatType rerouteLinks toc links
      slugText hljs_highlightAuto_language comments config in
  ((exists tree, result = Ok tree) <-> forallb generable comments = true)
  /\ (result = Throw TypeError <-> forallb generable comments = false).
Proof.
  intros result.
  assert (Hiff : (exists tree, result = Ok tree)
                 <-> forallb generable comments = true).
  { subst result. unfold buildMarkdownAST.
    rewrite <- (rawTree_Ok_iff
                  (_formatType
                     (namespaceResolver config comments (anchorFn slugText)))
                  (hljs_highlightAuto_language (hljsOptions config))
                  config comments).
    destruct (rawTree _ _ config comments) as [raw|e]; cbn [bind].
    - split; intros _; eexists; reflexivity.
    - split; intros [tree H]; discriminate H. }
  split; [exact Hiff|]. split.
  - intros Hthrow. destruct (forallb generable comments); [|reflexivity].
    destruct (proj2 Hiff eq_refl) as [tree Htree]. congruence.
  - intros Hgen. destruct result as [tree|e] eqn:Hres.
    + assert (forallb generable comments = true)
        by (apply Hiff; exists tree; reflexivity).
      congruence.
    + now rewrite (JsError_unique e).
Qed.

Lemma X2_buildMarkdownAST_succeeds_witness :
  generable sampleClass = true
  /\ generable (entry "outer" "class" [] [] [sampleMalformed] []) = false
  /\ (exists tree,
         buildMarkdownAST sampleNamespaceResolver sampleFormatTypeWith
           sampleReroute samplePlugin samplePlugin asciiSlugText
           sampleHighlightWith [sampleClass; sampleNote] sampleConfig
         = Ok tree)
  /\ buildMarkdownAST sampleNamespaceResolver sampleFormatTypeWith
       sampleReroute samplePlugin samplePlugin asciiSlugText
       sampleHighlightWith
       [sampleClass; entry "outer" "class" [] [] [sampleMalformed] []]
       sampleConfig
     = Throw TypeError.
Proof.
  split; [reflexivity|]. split; [reflexivity|]. split.
  - exact (proj2 (proj1 (@X2_buildMarkdownAST_succeeds_iff_generable
                           SampleLinker sampleNamespaceResolver
                           sampleFormatTypeWith sampleReroute samplePlugin
                           samplePlugin asciiSlugText sampleHighlightWith
                           [sampleClass; sampleNote] sampleConfig))
             eq_refl).
  - exact (proj2 (proj2 (@X2_buildMarkdownAST_succeeds_iff_generable
                           SampleLinker sampleNamespaceResolver
                           sampleFormatTypeWith sampleReroute samplePlugin
                           samplePlugin asciiSlugText sampleHighlightWith
                           [sampleClass;
                            entry "outer" "class" [] [] [sampleMalformed] []]
                           sampleConfig))
             eq_refl).
Defined.

(** ** The frame of the root and the forest *)

(** X3: whenever the tree is built, the children of its root are the
    "Generated by documentation.js" comment, the "Table of Contents"
    heading of depth 3 exactly when [markdownToc] is set, the output of
    [generate] at depth 2 for each top-level entry in the order of the
    forest, and one closing thematic break; for an empty forest only the
    frame is left. *)
Theorem X3_root_frame
    (formatType : FormatArg -> list Node)
    (hljs_highlightAuto_language : string -> option string)
    (config : DocumentationConfig) (comments : list Comment) (tree : Node) :
  rawTree formatType hljs_highlightAuto_language config comments = Ok tree ->
  exists outs,
    Forall2 (fun comment out =>
               generate formatType hljs_highlightAuto_language config 2 comment
               = Ok out) comments outs
    /\ tree
       = root ([html "<!-- Generated by documentation.js. Update this documentation by updating the source code. -->"]
                 ++ (if cfg_markdownToc config
                     then [heading 3 [text "Table of Contents"]]
                     else [])
                 ++ List.concat outs
                 ++ [thematicBreak])
    /\ (comments = [] -> List.concat outs = []).
Proof.
  intros Hraw. destruct (rawTree_inv _ _ _ _ Hraw) as [outs Houts].
  exists outs. split; [exact Houts|]. split.
  - rewrite (@rawTree_generated _ _ _ _ _ Houts) in Hraw.
    injection Hraw as <-. reflexivity.
  - intros ->. inversion Houts. reflexivity.
Qed.

Lemma X3_root_frame_witness :
  rawTree sampleFormatType sampleHighlight (mkConfig None false true) []
  = Ok (root [html "<!-- Generated by documentation.js. Update this documentation by updating the source code. -->";
              thematicBreak])
  /\ exists outs,
       rawTree sampleFormatType sampleHighlight sampleConfig [sampleNote]
       = Ok (root ([html "<!-- Generated by documentation.js. Update this documentation by updating the source code. -->";
                    heading 3 [text "Table of Contents"]]
                     ++ List.concat outs ++ [thematicBreak])).
Proof.
  split.
  - destruct (rawTree sampleFormatType sampleHighlight
                (mkConfig None false true) []) as [tree|e] eqn:Hraw;
      [|vm_compute in Hraw; discriminate Hraw].
    destruct (X3_root_frame _ _ _ _ Hraw) as (outs & _ & -> & Hempty).
    rewrite (Hempty eq_refl). reflexivity.
  - destruct (rawTree sampleFormatType sampleHighlight sampleConfig
                [sampleNote]) as [tree|e] eqn:Hraw;
      [|vm_compute in Hraw; discriminate Hraw].
    destruct (X3_root_frame _ _ _ _ Hraw) as (outs & _ & -> & _).
    exists outs. reflexivity.
Defined.

(** ** The examples section and the highlighter *)

Lemma examples_fold (lang : CommentExample -> option string)
    (es : list CommentExample) :
  forall memo,
    filterBoolean
      (fold_left
         (fun memo example =>
            memo
              +++ match ex_caption example with
                  | Some caption =>
                      JArr [ENode (paragraph [remarkNode caption])]
                  | None => JArr []
                  end
              +++ JArr [ENode (code (lang example) (ex_description example))])
         es memo)
    = filterBoolean memo ++ flat_map (exampleNodes lang) es.
Proof.
  induction es as [|example es IH]; intros memo; cbn [fold_left flat_map].
  - now rewrite app_nil_r.
  - rewrite IH, !filterBoolean_concat, <- !app_assoc. f_equal.
    unfold exampleNodes. destruct (ex_caption example); reflexivity.
Qed.

(** X5: for a non-empty sequence of examples the section is the text
    "Examples:" followed, example by example in the order of the sequence,
    by a paragraph holding the caption's tree when the example has a
    caption and then one code block holding the example's text; without
    [hljs.highlightAuto] every code block is tagged "javascript",
    with it each block gets the language the highlighter reports for its
    text. *)
Theorem X5_examples_layout
    (hljs_highlightAuto_language : string -> option string)
    (config : DocumentationConfig) (comment : Comment)
    (example : CommentExample) (rest : list CommentExample) :
  examples comment = Some (example :: rest) ->
  exists v,
    examplesSection hljs_highlightAuto_language config comment = Ok v
    /\ contribution v
       = text "Examples:"
           :: flat_map
                (exampleNodes
                   (fun e =>
                      if highlightAuto (hljsOptions config)
                      then hljs_highlightAuto_language (ex_description e)
                      else Some "javascript"))
                (example :: rest).
Proof.
  intros He. unfold examplesSection. rewrite He, nonEmpty_cons.
  eexists. split; [reflexivity|].
  unfold contribution. cbn [concat app filterBoolean]. f_equal.
  exact (examples_fold (exampleLanguage hljs_highlightAuto_language config)
           (example :: rest) []).
Qed.

Lemma X5_examples_layout_witness :
  exists v,
    examplesSection sampleHighlight sampleConfig
      (mkComment None None None None None None None None None
         (Some [mkExample "a()" (Some (mkRemark [text "First"]));
                mkExample "b()" None])
         None None None None None None None None None)
    = Ok v
    /\ contribution v
       = [text "Examples:";
          paragraph [root [text "First"]];
          code (Some "javascript") "a()";
          code (Some "javascript") "b()"].
Proof.
  exact (@X5_examples_layout sampleHighlight sampleConfig
           (mkComment None None None None None None None None None
              (Some [mkExample "a()" (Some (mkRemark [text "First"]));
                     mkExample "b()" None])
              None None None None None None None None None)
           (mkExample "a()" (Some (mkRemark [text "First"])))
           [mkExample "b()" None] eq_refl).
Defined.

Lemma fold_left_ext_in (A B : Type) (f g : A -> B -> A) (l : list B) :
  (forall a b, In b l -> f a b = g a b) ->
  forall a, fold_left f l a = fold_left g l a.
Proof.
  induction l as [|b l IH]; intros H a; [reflexivity|].
  cbn [fold_left]. rewrite (H a b (or_introl eq_refl)).
  apply IH. intros a' b' Hin. apply H. now right.
Qed.

Lemma generateGroup_ext (gen gen' : Comment -> Result (list Node))
    (group : list Comment) :
  (forall child, In child group -> gen child = gen' child) ->
  generateGroup gen group = generateGroup gen' group.
Proof.
  intros H. unfold generateGroup. destruct (nonEmpty group); [|reflexivity].
  f_equal. apply fold_left_ext_in. intros memo child Hin.
  now rewrite (H child Hin).
Qed.

(** The generator reads the configuration and the highlighter through the
    language of the examples only. *)
Lemma generate_ext_language
    (formatType : FormatArg -> list Node)
    (hl hl' : string -> option string) (config config' : DocumentationConfig) :
  (forall example,
      exampleLanguage hl config example = exampleLanguage hl' config' example) ->
  forall comment depth,
    generate formatType hl config depth comment
    = generate formatType hl' config' depth comment.
Proof.
  intros Hlang comment.
  induction comment as [c IH] using Comment_tree_ind. intros depth.
  assert (Hsec : sections formatType hl config depth c
                 = sections formatType hl' config' depth c).
  { unfold sections. f_equal.
    assert (He : examplesSection hl config c = examplesSection hl' config' c).
    { unfold examplesSection. destruct (examples c) as [es|]; [|reflexivity].
      rewrite (@fold_left_ext_in _ _ _
                 (fun memo example =>
                    memo
                      +++ match ex_caption example with
                          | Some caption =>
                              JArr [ENode (paragraph
                                             [remarkNode caption])]
                          | None => JArr []
                          end
                      +++ JArr [ENode (code (exampleLanguage hl' config' example)
                                         (ex_description example))])
                 es); [reflexivity|].
      intros memo example _. now rewrite Hlang. }
    now rewrite He. }
  rewrite !generate_eq, Hsec.
  destruct (members c) as [m|] eqn:Hm;
    [|destruct (isNote c); [reflexivity|destruct (sections _ _ _ _ _); reflexivity]].
  assert (group : forall l,
             (m_global m = Some l \/ m_instance m = Some l
              \/ m_static m = Some l \/ m_inner m = Some l) ->
             generateGroup (generate formatType hl config (depth + 1)) l
             = generateGroup (generate formatType hl' config' (depth + 1)) l).
  { intros l Hl. apply generateGroup_ext. intros child Hin.
    exact (IH child (@child_intro child c m l Hm Hl Hin) (depth + 1)). }
  destruct (m_global m) as [g|] eqn:Hg;
    destruct (m_instance m) as [i|] eqn:Hi;
    destruct (m_static m) as [s|] eqn:Hs;
    destruct (m_inner m) as [n|] eqn:Hn;
    repeat match goal with
           | |- context [generateGroup (generate formatType hl config _) ?l] =>
               rewrite (group l) by tauto
           end;
    reflexivity.
Qed.

(** X6: what [generate] returns for an entry does not depend on the
    [markdownToc] and [noReferenceLinks] options: two configurations with
    the same [hljs] settings give the same result. *)
Theorem X6_generate_ignores_toc_and_link_options
    (formatType : FormatArg -> list Node)
    (hljs_highlightAuto_language : string -> option string)
    (config config' : DocumentationConfig)
    (depth : nat) (comment : Comment) :
  cfg_hljs config = cfg_hljs config' ->
  generate formatType hljs_highlightAuto_language config depth comment
  = generate formatType hljs_highlightAuto_language config' depth comment.
Proof.
  intros H. apply generate_ext_language. intros example.
  unfold exampleLanguage, hljsOptions. rewrite H. reflexivity.
Qed.

Lemma X6_generate_ignores_options_witness :
  generate sampleFormatType sampleHighlight (mkConfig None true false)
    2 sampleClass
  = generate sampleFormatType sampleHighlight (mkConfig None false true)
      2 sampleClass.
Proof.
  exact (@X6_generate_ignores_toc_and_link_options
           sampleFormatType sampleHighlight
           (mkConfig None true false) (mkConfig None false true)
           2 sampleClass eq_refl).
Defined.

(** X7: unless [hljs.highlightAuto] is set, the highlighter is never
    consulted: the result of [generate] is the same for any two
    highlighters, at every depth and for every entry, examples included. *)
Theorem X7_highlighter_unused_by_default
    (formatType : FormatArg -> list Node)
    (hl hl' : string -> option string)
    (config : DocumentationConfig) (depth : nat) (comment : Comment) :
  highlightAuto (hljsOptions config) = false ->
  generate formatType hl config depth comment
  = generate formatType hl' config depth comment.
Proof.
  intros H. apply generate_ext_language. intros example.
  unfold exampleLanguage. rewrite H. reflexivity.
Qed.

Lemma X7_highlighter_unused_witness :
  generate sampleFormatType (fun _ => Some "js") sampleConfig 2 sampleClass
  = generate sampleFormatType (fun _ => None) sampleConfig 2 sampleClass.
Proof.
  exact (@X7_highlighter_unused_by_default
           sampleFormatType (fun _ => Some "js") (fun _ => None)
           sampleConfig 2 sampleClass eq_refl).
Defined.

(** ** Parameters and properties *)

(** X8: a tag whose nested [properties] is the empty array gets no nested
    list from [paramList], which returns early on an empty sequence, and
    an empty nested list from [propertyList], which does not. *)
Theorem X8_empty_nested_properties
    (formatType : FormatArg -> list Node) (tag : CommentTag) :
  tag_properties tag = Some [] ->
  paramItem formatType tag = listItem [paramParagraph formatType tag]
  /\ propertyItem formatType tag
     = listItem [propertyParagraph formatType tag; list_ false []].
Proof.
  intros H. rewrite paramItem_eq, propertyItem_eq, H. split; reflexivity.
Qed.

Lemma X8_empty_nested_properties_witness :
  paramItem sampleFormatType (mkTag "a" None None None (Some []))
  = listItem [paragraph [inlineCode "a"; text " "; text " "]]
  /\ propertyItem sampleFormatType (mkTag "a" None None None (Some []))
     = listItem [paragraph [inlineCode "a"; text " "; strong [text "any"];
                            text " "];
                 list_ false []].
Proof.
  exact (@X8_empty_nested_properties sampleFormatType
           (mkTag "a" None None None (Some [])) eq_refl).
Defined.

(** X9: the paragraph of a parameter holds its name, a space, its
    formatted type in a strong node only when it has a type, a space, the
    children of its description, and last the "(optional, default ...)"
    paragraph only when its default is a non-empty string; the paragraph
    of a property always holds the strong node, made from [formatType] of
    an undefined type when the property has none, and never shows a
    default. *)
Theorem X9_parameter_and_property_paragraphs
    (formatType : FormatArg -> list Node) (tag : CommentTag) :
  paramParagraph formatType tag
  = paragraph
      ([inlineCode (tag_name tag); text " "]
         ++ match tag_type tag with
            | Some t => [strong (formatType (ArgType t))]
            | None => []
            end
         ++ [text " "]
         ++ match tag_description tag with
            | Some d => r_children d
            | None => []
            end
         ++ match tag_default tag with
            | Some EmptyString | None => []
            | Some value =>
                [paragraph [text " (optional, default "; inlineCode value;
                            text ")"]]
            end)
  /\ propertyParagraph formatType tag
     = paragraph
         ([inlineCode (tag_name tag); text " ";
           strong (formatType match tag_type tag with
                              | Some t => ArgType t
                              | None => ArgUndefined
                              end);
           text " "]
            ++ match tag_description tag with
               | Some d => r_children d
               | None => []
               end).
Proof.
  split.
  - unfold paramParagraph. f_equal.
    rewrite !filterBoolean_concat.
    assert (Hd : contribution (descriptionChildren (tag_description tag))
                 = match tag_description tag with
                   | Some d => r_children d
                   | None => []
                   end)
      by (unfold descriptionChildren; destruct (tag_description tag);
          [apply contribution_nodes | reflexivity]).
    rewrite Hd.
    destruct (tag_type tag); destruct (tag_default tag) as [[|]|];
      cbn [filterBoolean app truthyStr String.eqb negb contribution concat];
      rewrite ?app_nil_r; reflexivity.
  - unfold propertyParagraph. f_equal.
    rewrite filterBoolean_concat. unfold descriptionChildren, typeArg.
    destruct (tag_description tag);
      [rewrite contribution_nodes; reflexivity | reflexivity].
Qed.

(** ** The metadata section and falsy values *)

(** X10: the metadata section reads the six tags through their truthiness:
    two entries that agree on every tag that is truthy in either of them
    get the same section, so a tag set to the empty string counts as a tag
    that is not there. *)
Theorem X10_meta_reads_truthy_tags_only (comment other : Comment) :
  (forall tag,
      In tag metaTags ->
      truthyMeta (getTag comment tag) = true
      \/ truthyMeta (getTag other tag) = true ->
      getTag other tag = getTag comment tag) ->
  metaSection other = metaSection comment.
Proof.
  intros H. rewrite !metaSection_eq.
  assert (Hp : forall tag, In tag metaTags ->
                           tagPresent other tag = tagPresent comment tag).
  { intros tag Hin. unfold tagPresent.
    destruct (truthyMeta (getTag comment tag)) eqn:Ec.
    - rewrite (H tag Hin (or_introl Ec)). exact Ec.
    - destruct (truthyMeta (getTag other tag)) eqn:Eo; [|reflexivity].
      rewrite (H tag Hin (or_intror Eo)) in Eo. congruence. }
  assert (Hf : filter (tagPresent other) metaTags
               = filter (tagPresent comment) metaTags).
  { apply filter_ext_in. exact Hp. }
  rewrite Hf.
  assert (Hm : map (metaItem other) (filter (tagPresent comment) metaTags)
               = map (metaItem comment) (filter (tagPresent comment) metaTags)).
  { apply map_ext_in. intros tag Hin. apply filter_In in Hin as [Hin Ht].
    unfold metaItem. rewrite (H tag Hin (or_introl Ht)). reflexivity. }
  rewrite Hm. reflexivity.
Qed.

Lemma X10_meta_truthy_witness :
  metaSection
    (mkComment (Some "old") (Some "function") None None
       (Some []) (Some []) (Some []) (Some []) (Some []) (Some []) (Some [])
       None (Some EmptyString) (Some "1.2.0") None (Some EmptyString) None
       (Some (mkRemark [paragraph [text "use new"]]))
       (Some (mkMembers (Some []) (Some []) (Some []) (Some []))))
  = metaSection sampleDeprecated.
Proof.
  apply X10_meta_reads_truthy_tags_only.
  intros tag Hin. cbn [metaTags In] in Hin.
  destruct Hin as [<-|[<-|[<-|[<-|[<-|[<-|[]]]]]]];
    intros [H|H]; (reflexivity || discriminate H).
Defined.

(** ** One list item per tag *)

Lemma CommentTag_tree_ind (P : CommentTag -> Prop) :
  (forall t, (forall ps, tag_properties t = Some ps -> Forall P ps) -> P t) ->
  forall t, P t.
Proof.
  intros step.
  fix IH 1.
  intros t. apply step.
  destruct t as [? ? ? ? props].
  destruct props as [lp|]; [|intros ps E; discriminate E].
  assert (Hlp : Forall P lp)
    by (induction lp; constructor; [apply IH | assumption]).
  intros ps E. injection E as <-. exact Hlp.
Qed.

Lemma tagsAt_eq (lvl : nat) (t : CommentTag) :
  tagsAt lvl t
  = (lvl, t)
      :: match tag_properties t with
         | Some ps => flat_map (tagsAt (S lvl)) ps
         | None => []
         end.
Proof. destruct t; reflexivity. Qed.

(** The items of a list made of one item per tag, when the items of each
    tag are those of the tag and of the tags nested in it. *)
Lemma itemsAt_list (item paragraphOf : CommentTag -> Node)
    (tags : list CommentTag) :
  Forall (fun t => forall lvl,
              itemsAt lvl (item t)
              = map (fun lt => (fst lt, paragraphOf (snd lt))) (tagsAt lvl t))
         tags ->
  forall lvl,
    flat_map (itemsAt lvl) (map item tags)
    = map (fun lt => (fst lt, paragraphOf (snd lt)))
        (flat_map (tagsAt lvl) tags).
Proof.
  induction 1 as [|t tags Ht _ IH]; intros lvl; [reflexivity|].
  cbn [map flat_map]. rewrite map_app, Ht, IH. reflexivity.
Qed.

Lemma itemsAt_paramItem (formatType : FormatArg -> list Node)
    (t : CommentTag) :
  forall lvl,
    itemsAt lvl (paramItem formatType t)
    = map (fun lt => (fst lt, paramParagraph formatType (snd lt)))
        (tagsAt lvl t).
Proof.
  induction t as [t IH] using CommentTag_tree_ind. intros lvl.
  rewrite paramItem_eq, tagsAt_eq.
  destruct (tag_properties t) as [ps|]; [|reflexivity].
  specialize (IH ps eq_refl). destruct ps as [|p ps]; [reflexivity|].
  change (itemsAt lvl
            (listItem [paramParagraph formatType t;
                       list_ false (map (paramItem formatType) (p :: ps))])
          = (lvl, paramParagraph formatType t)
              :: map (fun lt => (fst lt, paramParagraph formatType (snd lt)))
                   (flat_map (tagsAt (S lvl)) (p :: ps))).
  cbn [itemsAt flat_map]. rewrite app_nil_r. f_equal.
  exact (itemsAt_list _ _ IH (S lvl)).
Qed.

Lemma itemsAt_propertyItem (formatType : FormatArg -> list Node)
    (t : CommentTag) :
  forall lvl,
    itemsAt lvl (propertyItem formatType t)
    = map (fun lt => (fst lt, propertyParagraph formatType (snd lt)))
        (tagsAt lvl t).
Proof.
  induction t as [t IH] using CommentTag_tree_ind. intros lvl.
  rewrite propertyItem_eq, tagsAt_eq.
  destruct (tag_properties t) as [ps|]; [|reflexivity].
  specialize (IH ps eq_refl).
  change (itemsAt lvl
            (listItem [propertyParagraph formatType t;
                       list_ false (map (propertyItem formatType) ps)])
          = (lvl, propertyParagraph formatType t)
              :: map (fun lt => (fst lt, propertyParagraph formatType (snd lt)))
                   (flat_map (tagsAt (S lvl)) ps)).
  cbn [itemsAt flat_map]. rewrite app_nil_r. f_equal.
  exact (itemsAt_list _ _ IH (S lvl)).
Qed.

(** X11: the list items of the parameters section, taken in document
    order with their nesting level, are the parameters taken in the order
    they are written with their nesting level, nested properties included,
    and each item opens with the paragraph of its own tag; the same holds
    for the properties section. So no parameter or property is dropped,
    listed twice, moved or put at another level. *)
Theorem X11_one_list_item_per_tag
    (formatType : FormatArg -> list Node) (comment : Comment)
    (tags : list CommentTag) :
  (params comment = Some tags ->
   exists p,
     paramSection formatType comment = Ok p
     /\ flat_map (itemsAt 0) (contribution p)
        = map (fun lt => (fst lt, paramParagraph formatType (snd lt)))
            (flat_map (tagsAt 0) tags))
  /\ (properties comment = Some tags ->
      exists pr,
        propertySection formatType comment = Ok pr
        /\ flat_map (itemsAt 0) (contribution pr)
           = map (fun lt => (fst lt, propertyParagraph formatType (snd lt)))
               (flat_map (tagsAt 0) tags)).
Proof.
  split; intros H.
  - rewrite paramSection_eq, H. eexists. split; [reflexivity|].
    destruct tags as [|t tags]; [reflexivity|].
    rewrite nonEmpty_cons.
    change (flat_map (itemsAt 0) (map (paramItem formatType) (t :: tags)) ++ []
            = map (fun lt => (fst lt, paramParagraph formatType (snd lt)))
                (flat_map (tagsAt 0) (t :: tags))).
    rewrite app_nil_r. apply itemsAt_list.
    apply Forall_forall. intros x _. apply itemsAt_paramItem.
  - unfold propertySection. rewrite H. eexists. split; [reflexivity|].
    destruct tags as [|t tags]; [reflexivity|].
    rewrite nonEmpty_cons.
    change (flat_map (itemsAt 0) (map (propertyItem formatType) (t :: tags))
              ++ []
            = map (fun lt => (fst lt, propertyParagraph formatType (snd lt)))
                (flat_map (tagsAt 0) (t :: tags))).
    rewrite app_nil_r. apply itemsAt_list.
    apply Forall_forall. intros x _. apply itemsAt_propertyItem.
Qed.

Lemma X11_one_list_item_per_tag_witness :
  exists p,
    paramSection sampleFormatType sampleClass = Ok p
    /\ flat_map (itemsAt 0) (contribution p)
       = [(0, paragraph [inlineCode "options"; text " ";
                         strong [inlineCode "Object"]; text " "]);
          (1, paragraph [inlineCode "options.size"; text " ";
                         strong [inlineCode "number"]; text " "])].
Proof.
  exact (proj1 (@X11_one_list_item_per_tag sampleFormatType sampleClass
                  [mkTag "options" (Some (NameExpression "Object")) None None
                     (Some [typedTag "options.size" "number"])])
           eq_refl).
Defined.

(** ** What the generator does not read *)

Lemma headingContent_githubUrl (c c' : Comment) :
  name c' = name c -> githubUrl c' = githubUrl c ->
  headingContent c' = headingContent c.
Proof.
  intros Hn Hu. rewrite !headingContent_eq. unfold nameOrEmpty.
  rewrite Hn. unfold githubUrl in Hu.
  destruct (githubOf c') as [g'|]; destruct (githubOf c) as [g|];
    cbn [option_map] in Hu; try discriminate Hu; [|reflexivity].
  injection Hu as ->. reflexivity.
Qed.

Lemma typeSection_signature (formatType : FormatArg -> list Node)
    (c c' : Comment) :
  rendersSignature formatType ->
  type c' = type c -> kind c' = kind c -> params c' = params c ->
  firstReturnType c' = firstReturnType c ->
  typeSection formatType c' = typeSection formatType c.
Proof.
  intros Hft Ht Hk Hp Hr. unfold typeSection. rewrite Ht, Hk.
  destruct (type c); [reflexivity|].
  destruct (truthyStr (kind c)); [|reflexivity].
  rewrite (Hft (mkSynth "FunctionType" c' (firstReturnType c'))
               (mkSynth "FunctionType" c (firstReturnType c))); [reflexivity|].
  unfold signature. cbn [st_type st_comment st_result]. now rewrite Hp, Hr.
Qed.

(** X12: of an entry's [returns] the generator reads the type of the first
    entry only, and of its [context] the GitHub url only: replacing the
    returns by others with the same first type (or by none when there was
    no first type), or the context by another with the same url (another
    line number, another file path), leaves the result of [generate]
    unchanged, for a [formatType] that renders a synthesized function type
    from its signature. *)
Theorem X12_unread_returns_and_context
    (formatType : FormatArg -> list Node)
    (hljs_highlightAuto_language : string -> option string)
    (config : DocumentationConfig) (depth : nat) (comment : Comment)
    (rs : option (list CommentTag)) (ctx : option CommentContext) :
  rendersSignature formatType ->
  firstReturnType (withReturns rs comment) = firstReturnType comment ->
  githubUrl (withContext ctx comment) = githubUrl comment ->
  generate formatType hljs_highlightAuto_language config depth
    (withContext ctx (withReturns rs comment))
  = generate formatType hljs_highlightAuto_language config depth comment.
Proof.
  intros Hft Hr Hu.
  assert (Hsec : sections formatType hljs_highlightAuto_language config depth
                   (withContext ctx (withReturns rs comment))
                 = sections formatType hljs_highlightAuto_language config
                     depth comment).
  { unfold sections.
    change (augmentsLink (withContext ctx (withReturns rs comment)))
      with (augmentsLink comment).
    change (seeLink (withContext ctx (withReturns rs comment)))
      with (seeLink comment).
    change (paramSection formatType (withContext ctx (withReturns rs comment)))
      with (paramSection formatType comment).
    change (propertySection formatType
              (withContext ctx (withReturns rs comment)))
      with (propertySection formatType comment).
    change (throwsSection formatType
              (withContext ctx (withReturns rs comment)))
      with (throwsSection formatType comment).
    change (examplesSection hljs_highlightAuto_language config
              (withContext ctx (withReturns rs comment)))
      with (examplesSection hljs_highlightAuto_language config comment).
    change (metaSection (withContext ctx (withReturns rs comment)))
      with (metaSection comment).
    change (description (withContext ctx (withReturns rs comment)))
      with (description comment).
    rewrite (headingContent_githubUrl comment
               (withContext ctx (withReturns rs comment)) eq_refl Hu).
    rewrite (typeSection_signature comment
               (withContext ctx (withReturns rs comment)) Hft
               eq_refl eq_refl eq_refl Hr).
    reflexivity. }
  rewrite !generate_eq, Hsec. reflexivity.
Qed.

Lemma X12_unread_returns_and_context_witness :
  generate sampleFormatType sampleHighlight sampleConfig 2
    (withContext
       (Some (mkContext 99
                (Some (mkGitHub "lib/moved.js"
                         "https://github.com/o/r/blob/main/src/widget.js#L12"))))
       (withReturns
          (Some [mkTag "ignored" (Some (NameExpression "Widget"))
                   (Some (mkRemark [text "the widget"])) None None;
                 typedTag "more" "Error"])
          sampleClass))
  = generate sampleFormatType sampleHighlight sampleConfig 2 sampleClass.
Proof.
  exact (@X12_unread_returns_and_context
           sampleFormatType sampleHighlight sampleConfig 2 sampleClass
           (Some [mkTag "ignored" (Some (NameExpression "Widget"))
                    (Some (mkRemark [text "the widget"])) None None;
                  typedTag "more" "Error"])
           (Some (mkContext 99
                    (Some (mkGitHub "lib/moved.js"
                             "https://github.com/o/r/blob/main/src/widget.js#L12"))))
           sampleFormatType_rendersSignature eq_refl eq_refl).
Defined.

(** ** Empty and absent sequences *)




